(** * PyDX blob decoders (src/pydx/parsers.py)

    A shallow embedding of the binary-blob decoders of PyDX: the
    interleaved record decoders ([decode_peak_ratings], [decode_peak_areas],
    [decode_gap_fill_status], [decode_gap_status]), the length-prefixed
    array decoder ([decode_retention_times]) and the XML extractors
    ([decode_peak_model], [decode_spectrum]).

    Conventions of the model:
    - a Python [bytes] object is a [list byte];
    - a Python exception is a value of [py_error], a call returns
      [result A] ([Ok] or [Err]);
    - a 64-bit float produced by [struct.unpack('<d')] is kept as its
      IEEE-754 bit pattern (a [Z] in [0, 2^64)): [struct] copies the
      eight bytes unchanged and [np.array(..., dtype=np.float64)] keeps
      them, so no arithmetic on floats is ever performed by this code;
    - [np.array(ints, dtype=np.uintW)] follows numpy 2 (the dependency is
      unpinned): a Python int outside [[0, 2^W)] raises [OverflowError],
      the others are stored unchanged. *)

From Stdlib Require Import ZArith Lia String Ascii Bool QArith.
From Stdlib Require Import Strings.Byte.
From stdpp Require Import base list gmap strings.

Open Scope Z_scope.

(* ------------------------------------------------------------------ *)
(** ** Python values and errors *)

Abbreviation bytes := (list byte) (only parsing).

(** The Python exceptions raised by the decoders.  The messages are those
    of the source (or of CPython for built-in failures). *)
Inductive py_error :=
| AssertionError (msg : string)
| ValueError (msg : string)
| StructError (msg : string)
| AttributeError (msg : string)
| KeyError (key : string)
| TypeError (msg : string)
| OverflowError (msg : string)
| LibraryError (msg : string).

Inductive result (A : Type) :=
| Ok (a : A)
| Err (e : py_error).
Arguments Ok {A} a.
Arguments Err {A} e.

Definition rbind {A B} (m : result A) (k : A -> result B) : result B :=
  match m with Ok a => k a | Err e => Err e end.

Notation "x <- m ;; k" := (rbind m (fun x => k))
  (at level 62, m at next level, right associativity).

Definition is_ok {A} (r : result A) : bool :=
  match r with Ok _ => true | Err _ => false end.

(** The spec's error taxonomy (section 7), applied to the exceptions the
    source raises: the length [assert]s, the [struct] size check and the
    stride-5 [ValueError] are byte-count failures; an absent element
    ([None.text]), attribute ([KeyError]) or [double] item (too few
    values to unpack) is a missing field; a text that [float()] refuses,
    or [float(None)], is a parse error. *)
Inductive spec_error := MalformedLength | MissingField | ParseError | OtherError.

Definition msg_not_multiple_of_4 : string :=
  "Remaining byte count is not a multiple of 4".
Definition msg_float_conversion : string := "could not convert string to float".
Definition msg_unpack_short : string := "not enough values to unpack (expected 2)".
Definition msg_unpack_long : string := "too many values to unpack (expected 2)".

Definition error_kind (e : py_error) : spec_error :=
  match e with
  | AssertionError _ => MalformedLength
  | StructError _ => MalformedLength
  | ValueError m =>
      if String.eqb m msg_not_multiple_of_4 then MalformedLength
      else if String.eqb m msg_float_conversion then ParseError
      else if String.eqb m msg_unpack_short then MissingField
      else OtherError
  | AttributeError _ => MissingField
  | KeyError _ => MissingField
  | TypeError _ => ParseError
  | OverflowError _ => OtherError
  | LibraryError _ => OtherError
  end.

(* ------------------------------------------------------------------ *)
(** ** Byte-level helpers *)

Definition byte_val (b : byte) : Z := Z.of_N (Byte.to_N b).

(** The byte of value [n mod 256], for writing buffers. *)
Definition b (n : Z) : byte :=
  match Byte.of_N (Z.to_N (n mod 256)) with Some x => x | None => x00 end.

(** [int.from_bytes(bs, "little")] *)
Fixpoint le_unsigned (bs : bytes) : Z :=
  match bs with
  | [] => 0
  | b :: r => byte_val b + 256 * le_unsigned r
  end.

(** [int.from_bytes(bs, "little", signed=True)]: two's complement over
    [8 * len(bs)] bits; the empty buffer gives 0. *)
Definition le_signed (bs : bytes) : Z :=
  let u := le_unsigned bs in
  let w := 8 * Z.of_nat (length bs) in
  if Nat.eqb (length bs) 0 then 0
  else if u <? 2 ^ (w - 1) then u else u - 2 ^ w.

(** [bytes(b for i, b in enumerate(blb) if p(i))], enumerating from [i]. *)
Fixpoint keep_enum {A} (p : nat -> bool) (i : nat) (l : list A) : list A :=
  match l with
  | [] => []
  | b :: r => if p i then b :: keep_enum p (S i) r else keep_enum p (S i) r
  end.

(** [l[a:b]] for [0 <= a <= b] *)
Definition py_slice {A} (l : list A) (a b : nat) : list A :=
  firstn (b - a) (skipn a l).

(** [range(0, n, step)] for [step > 0] *)
Definition py_range_step (n step : nat) : list nat :=
  map (fun i => (step * i)%nat) (seq 0 ((n + step - 1) / step)).

(** A float64 is represented by its IEEE-754 bit pattern. *)
Definition float64 := Z.

(** The values of [struct.unpack('<' + 'd' * n, buf)] once [buf] has
    exactly [8 * n] bytes. *)
Fixpoint unpack_doubles (n : nat) (buf : bytes) : list float64 :=
  match n with
  | O => []
  | S n' => le_unsigned (firstn 8 buf) :: unpack_doubles n' (skipn 8 buf)
  end.

Definition msg_struct_size : string := "unpack requires a buffer of the format size".

(** [struct.unpack('<' + 'd' * n, buf)] *)
Definition struct_unpack_d (n : nat) (buf : bytes) : result (list float64) :=
  if Nat.eqb (length buf) (8 * n) then Ok (unpack_doubles n buf)
  else Err (StructError msg_struct_size).

(** [struct.unpack('<' + 'B' * n, buf)] *)
Definition struct_unpack_B (n : nat) (buf : bytes) : result (list Z) :=
  if Nat.eqb (length buf) n then Ok (map byte_val buf)
  else Err (StructError msg_struct_size).

(** [np.array(xs, dtype=np.float64)] on Python floats: the values are kept. *)
Definition np_array_float64 (xs : list float64) : list float64 := xs.

(** The decimal digit [d < 10] as a character. *)
Definition digit_char (d : N) : ascii := ascii_of_N (48 + d).

(** The decimal digits of [n] in front of [acc]; [fuel] bounds the number
    of digits. *)
Fixpoint dec_digits (fuel : nat) (n : N) (acc : string) : string :=
  match fuel with
  | O => acc
  | S f =>
      let acc' := String (digit_char (n mod 10)) acc in
      if N.eqb (n / 10) 0 then acc' else dec_digits f (n / 10) acc'
  end.

(** [str(n)], and [repr(n)], of a Python int. *)
Definition py_str_int (z : Z) : string :=
  match z with
  | Z0 => "0"
  | Zpos p => dec_digits (Pos.size_nat p) (Npos p) ""
  | Zneg p => "-" +:+ dec_digits (Pos.size_nat p) (Npos p) ""
  end.

(** A Python int fits the unsigned [w]-bit dtype. *)
Definition uint_in_range (w v : Z) : bool := (0 <=? v) && (v <? 2 ^ w).

Definition msg_uint_overflow (w v : Z) : string :=
  "Python integer " +:+ py_str_int v +:+ " out of bounds for uint" +:+ py_str_int w.

(** [np.array(xs, dtype=np.uintW)] on a list of Python ints (numpy 2, the
    release the unpinned dependency installs): every value must lie in
    [[0, 2^w)]; the first one that does not raises [OverflowError].  The
    values in range are stored unchanged. *)
Definition np_array_uint (w : Z) (xs : list Z) : result (list Z) :=
  match List.find (fun v => negb (uint_in_range w v)) xs with
  | Some v => Err (OverflowError (msg_uint_overflow w v))
  | None => Ok xs
  end.

(* ------------------------------------------------------------------ *)
(** ** Interleaved record decoders *)

Definition msg_multiple_of_9 : string := "Byte length must be a multiple of 9".

(** [decode_peak_ratings] (parsers.py, lines 35-42) *)
Definition decode_peak_ratings (blb : bytes) : result (list float64 * list Z) :=
  if negb (Nat.eqb (length blb mod 9) 0) then Err (AssertionError msg_multiple_of_9)
  else
    let ratings_bytes := keep_enum (fun i => negb (Nat.eqb (i mod 9) 8)) 0 blb in
    ratings <- struct_unpack_d (length ratings_bytes / 8) ratings_bytes ;;
    let flag_bytes := keep_enum (fun i => Nat.eqb (i mod 9) 8) 0 blb in
    flags <- struct_unpack_B (length flag_bytes) flag_bytes ;;
    flags_arr <- np_array_uint 8 flags ;;
    Ok (np_array_float64 ratings, flags_arr).

(** [decode_peak_areas] (parsers.py, lines 82-89): the same steps as
    [decode_peak_ratings], written out again as in the source. *)
Definition decode_peak_areas (blb : bytes) : result (list float64 * list Z) :=
  if negb (Nat.eqb (length blb mod 9) 0) then Err (AssertionError msg_multiple_of_9)
  else
    let area_bytes := keep_enum (fun i => negb (Nat.eqb (i mod 9) 8)) 0 blb in
    areas <- struct_unpack_d (length area_bytes / 8) area_bytes ;;
    let flag_bytes := keep_enum (fun i => Nat.eqb (i mod 9) 8) 0 blb in
    flags <- struct_unpack_B (length flag_bytes) flag_bytes ;;
    flags_arr <- np_array_uint 8 flags ;;
    Ok (np_array_float64 areas, flags_arr).

(** The bytes kept by the stride-5 decoders:
    [bytes(b for j, b in enumerate(blb) if (j + 1) % 5 != 0)]. *)
Definition drop_every_5th (blb : bytes) : bytes :=
  keep_enum (fun j => negb (Nat.eqb ((j + 1) mod 5) 0)) 0 blb.

(** [[int.from_bytes(kept[k:k+4], "little", signed=True)
       for k in range(0, len(kept), 4)]] *)
Definition signed_words (kept : bytes) : list Z :=
  map (fun k => le_signed (py_slice kept k (k + 4))) (py_range_step (length kept) 4).

(** [decode_gap_fill_status] (parsers.py, lines 91-96) *)
Definition decode_gap_fill_status (blb : bytes) : result (list Z) :=
  let kept := drop_every_5th blb in
  if negb (Nat.eqb (length kept mod 4) 0) then Err (ValueError msg_not_multiple_of_4)
  else np_array_uint 16 (signed_words kept).

(** [decode_gap_status] (parsers.py, lines 107-111) *)
Definition decode_gap_status (blb : bytes) : result (list Z) :=
  let kept := drop_every_5th blb in
  if negb (Nat.eqb (length kept mod 4) 0) then Err (ValueError msg_not_multiple_of_4)
  else np_array_uint 8 (signed_words kept).

(* ------------------------------------------------------------------ *)
(** ** Length-prefixed array decoder *)

Definition msg_struct_layout : string :=
  "Struct must be 4 byte integer followed by 8 byte doubles".

(** [decode_retention_times] (parsers.py, lines 113-116); the [assert]
    computes [(len(blb) - 4) % 8] on Python ints (floor modulo, as [Z.modulo]). *)
Definition decode_retention_times (blb : bytes) : result (list float64) :=
  if negb (Z.eqb ((Z.of_nat (length blb) - 4) mod 8) 0)
  then Err (AssertionError msg_struct_layout)
  else
    let blen := le_unsigned (firstn 4 blb) in
    ds <- struct_unpack_d (Z.to_nat blen) (skipn 4 blb) ;;
    Ok (np_array_float64 ds).

(* ------------------------------------------------------------------ *)
(** ** XML extractors *)

(** An [xml.etree.ElementTree.Element]: tag, attribute dictionary, text
    (None when the element has no text) and children in document order. *)
Local Set Warnings "-register-all".
Inductive element := Element {
  tag : string;
  attrib : list (string * string);
  text : option string;
  children : list element
}.

(** [e.find(t)]: the first direct child with tag [t]. *)
Definition xml_find (e : element) (t : string) : option element :=
  List.find (fun c => String.eqb (tag c) t) (children e).

(** [e.findall(t)]: the direct children with tag [t], in document order. *)
Definition xml_findall (e : element) (t : string) : list element :=
  List.filter (fun c => String.eqb (tag c) t) (children e).

(** [e.attrib[k]] *)
Definition attrib_get (e : element) (k : string) : result string :=
  match List.find (fun kv => String.eqb (fst kv) k) (attrib e) with
  | Some kv => Ok (snd kv)
  | None => Err (KeyError k)
  end.

Definition msg_none_text : string := "'NoneType' object has no attribute 'text'".
Definition msg_none_findall : string := "'NoneType' object has no attribute 'findall'".
Definition msg_float_none : string := "float() argument must be a string or a real number, not 'NoneType'".
Definition msg_b64_none : string := "argument should be a bytes-like object or ASCII string, not 'NoneType'".

(** A row of the spectrum table; the fields are the DataFrame's columns
    ["mz", "intensity", "Z", "resolution", "signalNoiseRatio"] (the
    column "Z" is the field [col_Z], as [Z] names the integers here). *)
Record spectrum_row (F : Type) := {
  mz : F; intensity : F; col_Z : F; resolution : F; signalNoiseRatio : F
}.
Arguments Build_spectrum_row {F}.
Arguments mz {F}. Arguments intensity {F}. Arguments col_Z {F}.
Arguments resolution {F}. Arguments signalNoiseRatio {F}.

(** The [pd.Series] returned by [decode_peak_model], by index label. *)
Record peak_shape (F : Type) := {
  apexRT : F; leftRT : F; rightRT : F; width : F;
  intensityLow : F; intensityHigh : F
}.
Arguments Build_peak_shape {F}.

(** Sequential evaluation of a generator: the first exception stops it. *)
Fixpoint map_result {X Y} (f : X -> result Y) (l : list X) : result (list Y) :=
  match l with
  | [] => Ok []
  | x :: r => y <- f x ;; ys <- map_result f r ;; Ok (y :: ys)
  end.

Section Library.

(** The Python float type and [float(s)] on a string ([None] when
    [float] raises [ValueError]). *)
Variable float_t : Type.
Variable py_float : string -> option float_t.

(** [zf = zipfile.ZipFile(io.BytesIO(blb));
     zf.open(zf.namelist()[0]).read().decode('utf-8')] *)
Variable zip_first_text : bytes -> result string.
(** [ElementTree.fromstring(s)] *)
Variable xml_fromstring : string -> result element.
(** [base64.b64decode(s)] on a string *)
Variable b64decode : string -> result bytes.

(** [float(x)] on an element's [.text]. *)
Definition float_of_text (t : option string) : result float_t :=
  match t with
  | None => Err (TypeError msg_float_none)
  | Some s => match py_float s with
              | Some f => Ok f
              | None => Err (ValueError msg_float_conversion)
              end
  end.

(** [float(etree.find(t).text)] *)
Definition find_float (e : element) (t : string) : result float_t :=
  match xml_find e t with
  | None => Err (AttributeError msg_none_text)
  | Some c => float_of_text (text c)
  end.

(** [float(pk.attrib[k])] *)
Definition attrib_float (pk : element) (k : string) : result float_t :=
  s <- attrib_get pk k ;;
  match py_float s with
  | Some f => Ok f
  | None => Err (ValueError msg_float_conversion)
  end.

(** Unzip the first member and parse it: lines 63-66 (and 70-73, 99-102). *)
Definition unzip_xml (blb : bytes) : result element :=
  xml_data <- zip_first_text blb ;;
  xml_fromstring xml_data.

(** [low, high = (float(t.text) for t in ds)]: tuple unpacking pulls the
    generator, converting each item, and checks there are exactly two. *)
Definition unpack2 (ds : list element) : result (float_t * float_t) :=
  match ds with
  | [] => Err (ValueError msg_unpack_short)
  | [t1] => _ <- float_of_text (text t1) ;; Err (ValueError msg_unpack_short)
  | t1 :: t2 :: rest =>
      low <- float_of_text (text t1) ;;
      high <- float_of_text (text t2) ;;
      match rest with
      | [] => Ok (low, high)
      | t3 :: _ => _ <- float_of_text (text t3) ;; Err (ValueError msg_unpack_long)
      end
  end.

(** [decode_peak_model], lines 63-73: the inner XML tree. *)
Definition peak_model_inner_tree (blb : bytes) : result element :=
  etree <- unzip_xml blb ;;
  data_text <- match xml_find etree "Data" with
               | None => Err (AttributeError msg_none_text)
               | Some d => Ok (text d)
               end ;;
  pk_model <- match data_text with
              | None => Err (TypeError msg_b64_none)
              | Some s => b64decode s
              end ;;
  unzip_xml pk_model.

(** [decode_peak_model], lines 75-80: the six fields of the inner tree,
    evaluated in the order of the source. *)
Definition peak_shape_of_tree (etree : element) : result (peak_shape float_t) :=
  lh <- (match xml_find etree "IntensityRange" with
         | None => Err (AttributeError msg_none_findall)
         | Some ir => unpack2 (xml_findall ir "double")
         end) ;;
  apex <- find_float etree "ApexRT" ;;
  left <- find_float etree "LeftRT" ;;
  right <- find_float etree "RightRT" ;;
  w <- find_float etree "Width" ;;
  Ok (Build_peak_shape apex left right w (fst lh) (snd lh)).

(** [decode_peak_model] (parsers.py, lines 62-80) *)
Definition decode_peak_model (blb : bytes) : result (peak_shape float_t) :=
  etree <- peak_model_inner_tree blb ;;
  peak_shape_of_tree etree.

(** One row of [decode_spectrum]'s generator. *)
Definition spectrum_row_of (pk : element) : result (spectrum_row float_t) :=
  x <- attrib_float pk "X" ;;
  y <- attrib_float pk "Y" ;;
  z <- attrib_float pk "Z" ;;
  r <- attrib_float pk "R" ;;
  sn <- attrib_float pk "SN" ;;
  Ok (Build_spectrum_row x y z r sn).

(** [decode_spectrum], line 104 on the parsed tree. *)
Definition spectrum_table (etree : element) : result (list (spectrum_row float_t)) :=
  match xml_find etree "PeakCentroids" with
  | None => Err (AttributeError msg_none_findall)
  | Some pc => map_result spectrum_row_of (xml_findall pc "Peak")
  end.

(** [decode_spectrum] (parsers.py, lines 98-105) *)
Definition decode_spectrum (blb : bytes) : result (list (spectrum_row float_t)) :=
  etree <- unzip_xml blb ;;
  spectrum_table etree.

(** The attributes read for each [Peak], in the order of the source. *)
Definition spectrum_attrs : list string := ["X"; "Y"; "Z"; "R"; "SN"].

(** Every attribute of [spectrum_attrs] is present and accepted by [float]. *)
Definition peak_attrs_ok (pk : element) : Prop :=
  Forall (fun k => exists s f, attrib_get pk k = Ok s /\ py_float s = Some f) spectrum_attrs.

(** The row [r] holds the converted attributes of [pk]: X as mz, Y as
    intensity, Z as the column "Z" (charge), R as resolution and SN as
    signalNoiseRatio. *)
Definition row_matches (pk : element) (r : spectrum_row float_t) : Prop :=
  attrib_float pk "X" = Ok (mz r) /\ attrib_float pk "Y" = Ok (intensity r) /\
  attrib_float pk "Z" = Ok (col_Z r) /\ attrib_float pk "R" = Ok (resolution r) /\
  attrib_float pk "SN" = Ok (signalNoiseRatio r).

Definition discard {X} (r : result X) : result unit := _ <- r ;; Ok tt.

(** The element [k] is a direct child whose text [float] turns into [v]. *)
Definition field_is (etree : element) (k : string) (v : float_t) : Prop :=
  exists c s, xml_find etree k = Some c /\ text c = Some s /\ py_float s = Some v.

(** The outcome of each of the five field reads of [peak_shape_of_tree],
    in evaluation order: IntensityRange, ApexRT, LeftRT, RightRT, Width. *)
Definition peak_field_results (etree : element) : list (result unit) :=
  [discard (match xml_find etree "IntensityRange" with
            | None => Err (AttributeError msg_none_findall)
            | Some ir => unpack2 (xml_findall ir "double")
            end);
   discard (find_float etree "ApexRT"); discard (find_float etree "LeftRT");
   discard (find_float etree "RightRT"); discard (find_float etree "Width")].

End Library.

(** The first failure of a sequence of reads, if any. *)
Fixpoint first_error (rs : list (result unit)) : option py_error :=
  match rs with
  | [] => None
  | Ok _ :: r => first_error r
  | Err e :: _ => Some e
  end.

(* ------------------------------------------------------------------ *)
(** ** Fixtures for the XML extractors *)

(** [float(s)] on decimal literals [-]digits[.digits], as an exact
    rational; used only to instantiate the extractors on fixtures. *)
Definition digit_of (c : ascii) : option Z :=
  let n := Z.of_nat (nat_of_ascii c) in
  if (48 <=? n) && (n <=? 57) then Some (n - 48) else None.

Fixpoint digits_value (s : string) (acc : Z) (cnt : nat) : option (Z * nat) :=
  match s with
  | EmptyString => Some (acc, cnt)
  | String c r =>
      match digit_of c with
      | Some d => digits_value r (10 * acc + d) (S cnt)
      | None => None
      end
  end.

Fixpoint split_at_dot (s : string) : string * option string :=
  match s with
  | EmptyString => (EmptyString, None)
  | String c r =>
      if Ascii.eqb c "."%char then (EmptyString, Some r)
      else let '(a, f) := split_at_dot r in (String c a, f)
  end.

Definition decimal_float (s : string) : option Q :=
  let '(neg, body) :=
    match s with
    | String c r => if Ascii.eqb c "-"%char then (true, r) else (false, s)
    | EmptyString => (false, s)
    end in
  let sign (v : Z) := if neg then - v else v in
  let '(ip, fp) := split_at_dot body in
  match digits_value ip 0 0 with
  | None | Some (_, O) => None
  | Some (iv, _) =>
      match fp with
      | None => Some (Qmake (sign iv) 1)
      | Some f =>
          match digits_value f 0 0 with
          | None => None
          | Some (fv, m) => Some (Qmake (sign (iv * 10 ^ Z.of_nat m + fv)) (Z.to_pos (10 ^ Z.of_nat m)))
          end
      end
  end.

(** An archive store and a parser that know a fixed set of documents. *)
Definition fixture_zip (entries : list (bytes * string)) (blb : bytes) : result string :=
  match List.find (fun e => if List.list_eq_dec Byte.byte_eq_dec (fst e) blb then true else false) entries with
  | Some e => Ok (snd e)
  | None => Err (LibraryError "BadZipFile: File is not a zip file")
  end.

Definition fixture_xml (docs : list (string * element)) (s : string) : result element :=
  match List.find (fun d => String.eqb (fst d) s) docs with
  | Some d => Ok (snd d)
  | None => Err (LibraryError "ParseError: syntax error")
  end.

Definition fixture_b64 (codes : list (string * bytes)) (s : string) : result bytes :=
  match List.find (fun d => String.eqb (fst d) s) codes with
  | Some d => Ok (snd d)
  | None => Err (LibraryError "binascii.Error: Incorrect padding")
  end.

Definition leaf (t : string) (s : string) : element := Element t [] (Some s) [].

(** The peak-model fixture of parsers.py (lines 45-61): the outer
    document holds the base64 text of the inner archive in [Data]. *)
Definition peak_model_inner_doc : element :=
  Element "PycoPeakModel" [] None
    [leaf "ApexRT" "5.14251207635566"; leaf "LeftRT" "5.0705754833446273";
     leaf "RightRT" "5.245777979330482";
     Element "IntensityRange" [] None [leaf "double" "0"; leaf "double" "112808.6875"];
     leaf "Emphasize" "false"; leaf "Width" "0.084733989250721287";
     leaf "Method" "Linear"].

Definition peak_model_outer_doc : element :=
  Element "PeakModel" [] None [leaf "Data" "AAEC"].

Definition outer_blob : bytes := [b 80; b 75; b 3; b 4].
Definition inner_blob : bytes := [b 0; b 1; b 2].

Definition fx_zip : bytes -> result string :=
  fixture_zip [(outer_blob, "outer.xml"); (inner_blob, "inner.xml")].
Definition fx_b64 : string -> result bytes := fixture_b64 [("AAEC", inner_blob)].
Definition fx_xml_with (inner : element) : string -> result element :=
  fixture_xml [("outer.xml", peak_model_outer_doc); ("inner.xml", inner)].

(** An inner document whose first double is not a number and which has
    no ApexRT element. *)
Definition peak_model_bad_doc : element :=
  Element "PycoPeakModel" [] None
    [leaf "LeftRT" "5.07"; leaf "RightRT" "5.24";
     Element "IntensityRange" [] None [leaf "double" "n/a"; leaf "double" "1"];
     leaf "Width" "0.08"].

Definition peak (attrs : list (string * string)) : element := Element "Peak" attrs None [].

(** A spectrum with a PeakCentroids collection whose second Peak has no SN. *)
Definition spectrum_doc_missing_sn : element :=
  Element "MassSpectrum" [] None
    [Element "PeakCentroids" [] None
       [peak [("X", "100.5"); ("Y", "2000"); ("Z", "1"); ("R", "60000"); ("SN", "12.5")];
        peak [("X", "101.5"); ("Y", "300"); ("Z", "1"); ("R", "60000")]]].

Definition spectrum_doc_ok : element :=
  Element "MassSpectrum" [] None
    [Element "PeakCentroids" [] None
       [peak [("X", "100.5"); ("Y", "2000"); ("Z", "1"); ("R", "60000"); ("SN", "12.5")];
        peak [("X", "101.5"); ("Y", "300"); ("Z", "1"); ("R", "60000"); ("SN", "3")]]].

Definition spectrum_doc_empty : element :=
  Element "MassSpectrum" [] None [Element "PeakCentroids" [] None []].



(* ------------------------------------------------------------------ *)
(** ** Decoder calls on the Python object store *)

(** A decoder call receives a reference to a [bytes] object and returns a
    reference to a new object.  The store maps references to the objects
    the code reads and creates: bytes (the blob, the filtered byte
    strings, [io.BytesIO] buffers), strings, lists, numpy arrays, tuples
    and the pandas results.  Each object the source builds is allocated at
    a fresh reference; nothing is ever written at an existing one unless
    the code does so. *)

Definition loc := positive.

Section Store.

Variable float_t : Type.
Variable py_float : string -> option float_t.
Variable zip_first_text : bytes -> result string.
Variable xml_fromstring : string -> result element.
Variable b64decode : string -> result bytes.
Variable gzip_decompress : bytes -> result bytes.
Variable utf8_decode : bytes -> result string.

(** [decode_mol_structure] (parsers.py, lines 32-33) *)
Definition decode_mol_structure (blb : bytes) : result string :=
  raw <- gzip_decompress blb ;;
  utf8_decode raw.

Inductive pyobj :=
| PBytes (bs : bytes)
| PStr (s : string)
| PList (vs : list Z)
| PArray (dtype : string) (vs : list Z)
| PTuple (ls : list loc)
| PSeries (s : peak_shape float_t)
| PFrame (rows : list (spectrum_row float_t)).

Local Abbreviation heap := (gmap loc pyobj) (only parsing).

(** The store-and-exception monad of a call: an exception leaves the
    objects created so far in the store. *)
Definition PyM (A : Type) := heap -> result A * heap.

Definition sret {A} (a : A) : PyM A := fun h => (Ok a, h).

Definition sbind {A B} (m : PyM A) (k : A -> PyM B) : PyM B :=
  fun h => match m h with
           | (Ok a, h') => k a h'
           | (Err e, h') => (Err e, h')
           end.

(** A pure step of the source that may raise. *)
Definition lift {A} (r : result A) : PyM A := fun h => (r, h).

Definition alloc (o : pyobj) : PyM loc :=
  fun h => let l := fresh (dom h) in (Ok l, <[l := o]> h).

Definition load_bytes (l : loc) : PyM bytes :=
  fun h => match h !! l with
           | Some (PBytes bs) => (Ok bs, h)
           | _ => (Err (TypeError "a bytes-like object is required"), h)
           end.

Local Notation "x <~ m ;; k" := (sbind m (fun x => k))
  (at level 62, m at next level, right associativity).

(** [decode_mol_structure] on the store. *)
Definition py_decode_mol_structure (l : loc) : PyM loc :=
  blb <~ load_bytes l ;;
  raw <~ lift (gzip_decompress blb) ;;
  _ <~ alloc (PBytes raw) ;;
  s <~ lift (utf8_decode raw) ;;
  alloc (PStr s).

(** [decode_peak_ratings] on the store. *)
Definition py_decode_peak_ratings (l : loc) : PyM loc :=
  blb <~ load_bytes l ;;
  if negb (Nat.eqb (length blb mod 9) 0) then lift (Err (AssertionError msg_multiple_of_9))
  else
    let ratings_bytes := keep_enum (fun i => negb (Nat.eqb (i mod 9) 8)) 0 blb in
    _ <~ alloc (PBytes ratings_bytes) ;;
    ratings <~ lift (struct_unpack_d (length ratings_bytes / 8) ratings_bytes) ;;
    _ <~ alloc (PList ratings) ;;
    let flag_bytes := keep_enum (fun i => Nat.eqb (i mod 9) 8) 0 blb in
    _ <~ alloc (PBytes flag_bytes) ;;
    flags <~ lift (struct_unpack_B (length flag_bytes) flag_bytes) ;;
    _ <~ alloc (PList flags) ;;
    a1 <~ alloc (PArray "float64" (np_array_float64 ratings)) ;;
    flags_arr <~ lift (np_array_uint 8 flags) ;;
    a2 <~ alloc (PArray "uint8" flags_arr) ;;
    alloc (PTuple [a1; a2]).

(** [decode_peak_areas] on the store. *)
Definition py_decode_peak_areas (l : loc) : PyM loc :=
  blb <~ load_bytes l ;;
  if negb (Nat.eqb (length blb mod 9) 0) then lift (Err (AssertionError msg_multiple_of_9))
  else
    let area_bytes := keep_enum (fun i => negb (Nat.eqb (i mod 9) 8)) 0 blb in
    _ <~ alloc (PBytes area_bytes) ;;
    areas <~ lift (struct_unpack_d (length area_bytes / 8) area_bytes) ;;
    _ <~ alloc (PList areas) ;;
    let flag_bytes := keep_enum (fun i => Nat.eqb (i mod 9) 8) 0 blb in
    _ <~ alloc (PBytes flag_bytes) ;;
    flags <~ lift (struct_unpack_B (length flag_bytes) flag_bytes) ;;
    _ <~ alloc (PList flags) ;;
    a1 <~ alloc (PArray "float64" (np_array_float64 areas)) ;;
    flags_arr <~ lift (np_array_uint 8 flags) ;;
    a2 <~ alloc (PArray "uint8" flags_arr) ;;
    alloc (PTuple [a1; a2]).

(** [decode_gap_fill_status] and [decode_gap_status] on the store; [w]
    and [dtype] are the output width. *)
Definition py_decode_stride5 (w : Z) (dtype : string) (l : loc) : PyM loc :=
  blb <~ load_bytes l ;;
  let kept := drop_every_5th blb in
  _ <~ alloc (PBytes kept) ;;
  if negb (Nat.eqb (length kept mod 4) 0) then lift (Err (ValueError msg_not_multiple_of_4))
  else
    _ <~ alloc (PList (signed_words kept)) ;;
    arr <~ lift (np_array_uint w (signed_words kept)) ;;
    alloc (PArray dtype arr).

Definition py_decode_gap_fill_status : loc -> PyM loc := py_decode_stride5 16 "uint16".
Definition py_decode_gap_status : loc -> PyM loc := py_decode_stride5 8 "uint8".

(** [decode_retention_times] on the store. *)
Definition py_decode_retention_times (l : loc) : PyM loc :=
  blb <~ load_bytes l ;;
  if negb (Z.eqb ((Z.of_nat (length blb) - 4) mod 8) 0)
  then lift (Err (AssertionError msg_struct_layout))
  else
    _ <~ alloc (PBytes (firstn 4 blb)) ;;
    let blen := le_unsigned (firstn 4 blb) in
    _ <~ alloc (PBytes (skipn 4 blb)) ;;
    ds <~ lift (struct_unpack_d (Z.to_nat blen) (skipn 4 blb)) ;;
    alloc (PArray "float64" (np_array_float64 ds)).

(** [zipfile.ZipFile(io.BytesIO(blb))], the member's text and its tree. *)
Definition py_unzip_xml (blb : bytes) : PyM element :=
  _ <~ alloc (PBytes blb) ;;
  xml_data <~ lift (zip_first_text blb) ;;
  _ <~ alloc (PStr xml_data) ;;
  lift (xml_fromstring xml_data).

(** [decode_peak_model] on the store. *)
Definition py_decode_peak_model (l : loc) : PyM loc :=
  blb <~ load_bytes l ;;
  etree <~ py_unzip_xml blb ;;
  data_text <~ lift (match xml_find etree "Data" with
                     | None => Err (AttributeError msg_none_text)
                     | Some d => Ok (text d)
                     end) ;;
  pk_model <~ lift (match data_text with
                    | None => Err (TypeError msg_b64_none)
                    | Some s => b64decode s
                    end) ;;
  _ <~ alloc (PBytes pk_model) ;;
  etree2 <~ py_unzip_xml pk_model ;;
  shape <~ lift (peak_shape_of_tree float_t py_float etree2) ;;
  alloc (PSeries shape).

(** [decode_spectrum] on the store. *)
Definition py_decode_spectrum (l : loc) : PyM loc :=
  blb <~ load_bytes l ;;
  etree <~ py_unzip_xml blb ;;
  rows <~ lift (spectrum_table float_t py_float etree) ;;
  alloc (PFrame rows).

(** Reading a call's output back from the store. *)
Definition view_pair (h : heap) (t : loc) : option (list Z * list Z) :=
  match h !! t with
  | Some (PTuple [a1; a2]) =>
      match h !! a1, h !! a2 with
      | Some (PArray _ xs), Some (PArray _ ys) => Some (xs, ys)
      | _, _ => None
      end
  | _ => None
  end.

Definition view_str (h : heap) (a : loc) : option string :=
  match h !! a with Some (PStr s) => Some s | _ => None end.

Definition view_array (h : heap) (a : loc) : option (list Z) :=
  match h !! a with Some (PArray _ xs) => Some xs | _ => None end.

Definition view_series (h : heap) (a : loc) : option (peak_shape float_t) :=
  match h !! a with Some (PSeries s) => Some s | _ => None end.

Definition view_frame (h : heap) (a : loc) : option (list (spectrum_row float_t)) :=
  match h !! a with Some (PFrame rs) => Some rs | _ => None end.

(** The observable outcome of a call: the exception, or the value of the
    returned object. *)
Definition observe {V} (view : heap -> loc -> option V) (r : result loc) (h : heap)
  : option (result V) :=
  match r with
  | Ok a => option_map Ok (view h a)
  | Err e => Some (Err e)
  end.

(** [wp m Q h]: run from store [h], [m] only adds objects, and its
    outcome and final store satisfy [Q]. *)
Definition wp {A} (m : PyM A) (Q : result A -> heap -> Prop) (h : heap) : Prop :=
  h ⊆ snd (m h) /\ Q (fst (m h)) (snd (m h)).

(** A decoder call is a pure function of the blob: called twice in a row
    on the same [bytes] object, each call leaves every existing object
    (the blob included) unchanged, and both calls have the outcome of the
    pure decoder on the blob's bytes. *)
Definition call_is_pure {V} (py : loc -> PyM loc) (view : heap -> loc -> option V)
    (pure : bytes -> result V) : Prop :=
  forall (h : heap) (l : loc) (bs : bytes), h !! l = Some (PBytes bs) ->
  let '(r1, h1) := py l h in
  let '(r2, h2) := py l h1 in
  h ⊆ h1 /\ h1 ⊆ h2 /\
  observe view r1 h1 = Some (pure bs) /\ observe view r2 h2 = Some (pure bs).

End Store.

(* ------------------------------------------------------------------ *)
(** ** Callers of the decoders: src/pydx/db.py *)

(** The exceptions of db.py and analysis.py that the decoders never raise. *)
Inductive xerror :=
| PyExc (e : py_error)
| IndexError (msg : string)
| NameError (name : string).

Inductive xresult (A : Type) :=
| XOk (a : A)
| XErr (e : xerror).
Arguments XOk {A} a.
Arguments XErr {A} e.

Definition xbind {A B} (m : xresult A) (k : A -> xresult B) : xresult B :=
  match m with XOk a => k a | XErr e => XErr e end.

Notation "x <-- m ;; k" := (xbind m (fun x => k))
  (at level 62, m at next level, right associativity).

Definition of_result {A} (r : result A) : xresult A :=
  match r with Ok a => XOk a | Err e => XErr (PyExc e) end.

(** [LazyBlob] (db.py, lines 16-27).  [A] is the type of the Python values
    the object holds: [_data] is the raw blob until the first successful
    access of [data], and the decoder's value after it. *)
Record LazyBlob (A : Type) := mkLazyBlob {
  _data : A;
  _decoder : A -> result A;
  _decoded : bool }.
Arguments mkLazyBlob {A} _data _decoder _decoded.
Arguments _data {A} l.
Arguments _decoder {A} l.
Arguments _decoded {A} l.

(** [LazyBlob(data, decoder)] *)
Definition LazyBlob_init {A} (data : A) (decoder : A -> result A) : LazyBlob A :=
  mkLazyBlob data decoder false.

(** The [data] property: the value returned (or the exception raised) and
    the object after the access.  When the decoder raises, the two
    assignments are not reached. *)
Definition LazyBlob_data {A} (self : LazyBlob A) : result A * LazyBlob A :=
  if negb (_decoded self) then
    match _decoder self (_data self) with
    | Ok v => (Ok v, mkLazyBlob v (_decoder self) true)
    | Err e => (Err e, self)
    end
  else (Ok (_data self), self).

(** The tables read by the cached properties of [PyDX] (db.py, lines
    36-154). *)
Inductive pydx_table :=
| Inputs | Samples | Features | Spectra | Chromatograms | CorrectedRetentionTimes
| ChemspiderAnnotations | ChemspiderHits
| MzcloudAnnotations | MzcloudSearchResultAnnotations | MzcloudSearchResults | MzcloudHits
| BestHitIonAnnotations | BestHitIons | SpectraIonAnnotations.

(** For each property: the attribute that caches it, the SQL table it
    reads and the [index_col] argument of [pd.read_sql_table]. *)
Definition table_source (p : pydx_table) : string * string * option string :=
  match p with
  | Inputs => ("_workflow_data", "WorkflowInputFiles", None)
  | Samples => ("_samples_data", "StudyInformation", None)
  | Features => ("_features_data", "ConsolidatedUnknownCompoundItems", Some "ID")
  | Spectra => ("_spectra_data", "MassSpectrumItems", None)
  | Chromatograms => ("_chromatograms_data", "ChromatogramPeakItems", None)
  | CorrectedRetentionTimes =>
      ("_corrected_retention_times_data", "FileAlignmentCorrectionItems", None)
  | ChemspiderAnnotations =>
      ("_chemspider_annotations_data", "ConsolidatedUnknownCompoundItemsChemSpiderResultItems", None)
  | ChemspiderHits => ("_chemspider_hits_data", "ChemSpiderResultItems", None)
  | MzcloudAnnotations =>
      ("_mzcloud_annotations_data", "ConsolidatedUnknownCompoundItemsMzCloudHitItems", None)
  | MzcloudSearchResultAnnotations =>
      ("_mzcloud_search_result_annotations_data",
       "ConsolidatedUnknownCompoundItemsMzCloudSearchResultItems", None)
  | MzcloudSearchResults => ("_mzcloud_search_results_data", "MzCloudSearchResultItems", None)
  | MzcloudHits => ("_mzcloud_hits_data", "MzCloudHitItems", None)
  | BestHitIonAnnotations =>
      ("_best_hit_ion_annotations_data",
       "ConsolidatedUnknownCompoundItemsBestHitIonInstanceItems", None)
  | BestHitIons => ("_best_hit_ions_data", "BestHitIonInstanceItems", None)
  | SpectraIonAnnotations =>
      ("_mass_spectra_ion_annotations_data", "BestHitIonInstanceItemsMassSpectrumItems", None)
  end.

Definition all_pydx_tables : list pydx_table :=
  [Inputs; Samples; Features; Spectra; Chromatograms; CorrectedRetentionTimes;
   ChemspiderAnnotations; ChemspiderHits; MzcloudAnnotations; MzcloudSearchResultAnnotations;
   MzcloudSearchResults; MzcloudHits; BestHitIonAnnotations; BestHitIons; SpectraIonAnnotations].

Definition cache_attr (p : pydx_table) : string := fst (fst (table_source p)).

(** [repr(tuple(ids))] for a sequence of Python ints. *)
Definition py_tuple_repr (ids : list Z) : string :=
  match ids with
  | [] => "()"
  | [x] => "(" +:+ py_str_int x +:+ ",)"
  | _ => "(" +:+ String.concat ", " (map py_str_int ids) +:+ ")"
  end.

Definition msg_no_feature_ids : string := "feature_ids must contain at least one ID".

(** The [where_clause] of the three feature queries (lines 87-92,
    125-130 and 157-162), on the column [col] of the source. *)
Definition feature_where_clause (col : string) (feature_ids : list Z) : result string :=
  if Nat.eqb (length feature_ids) 1 then
    Ok (col +:+ " = " +:+ py_str_int (nth 0 feature_ids 0))
  else if Nat.ltb 1 (length feature_ids) then
    Ok (col +:+ " IN " +:+ py_tuple_repr feature_ids)
  else Err (ValueError msg_no_feature_ids).

(** Reading back the text after the column name in a [where_clause]: the
    SQL a clause of the forms [col = n] and [col IN (n1, n2, ...)] selects
    on.  Integers are optional [-] then decimal digits. *)
(** Every character of [s] satisfies [f]. *)
Fixpoint string_all (f : ascii -> bool) (s : string) : bool :=
  match s with
  | EmptyString => true
  | String c r => f c && string_all f r
  end.

(** A minus sign or a decimal digit. *)
Definition digit_or_minus (c : ascii) : bool :=
  Ascii.eqb c "-" || (N.leb 48 (N_of_ascii c) && N.leb (N_of_ascii c) 57).

Fixpoint digits_acc (s : string) (acc : N) : option N :=
  match s with
  | EmptyString => Some acc
  | String c r =>
      let k := N_of_ascii c in
      if andb (N.leb 48 k) (N.leb k 57) then digits_acc r (acc * 10 + (k - 48))%N else None
  end.

Definition parse_dec (s : string) : option N :=
  match s with EmptyString => None | _ => digits_acc s 0 end.

Definition parse_sql_int (s : string) : option Z :=
  match parse_dec s with
  | Some n => Some (Z.of_N n)
  | None =>
      match s with
      | String c r =>
          if Ascii.eqb c "-" then option_map (fun n => Z.opp (Z.of_N n)) (parse_dec r) else None
      | EmptyString => None
      end
  end.

Fixpoint strip_prefix (p s : string) : option string :=
  match p with
  | EmptyString => Some s
  | String c p' =>
      match s with
      | String c' s' => if Ascii.eqb c c' then strip_prefix p' s' else None
      | EmptyString => None
      end
  end.

(** [s] without its last character, when that is a closing parenthesis. *)
Fixpoint strip_close (s : string) : option string :=
  match s with
  | EmptyString => None
  | String c EmptyString => if Ascii.eqb c ")" then Some EmptyString else None
  | String c r => option_map (String c) (strip_close r)
  end.

(** The pieces of [s] between commas. *)
Fixpoint split_comma (s : string) : list string :=
  match s with
  | EmptyString => [EmptyString]
  | String c r =>
      if Ascii.eqb c "," then EmptyString :: split_comma r
      else match split_comma r with
           | p :: ps => String c p :: ps
           | [] => [String c EmptyString]
           end
  end.

Fixpoint parse_sql_tail (ps : list string) : option (list Z) :=
  match ps with
  | [] => Some []
  | p :: qs =>
      match strip_prefix " " p with
      | Some p' =>
          match parse_sql_int p', parse_sql_tail qs with
          | Some z, Some zs => Some (z :: zs)
          | _, _ => None
          end
      | None => None
      end
  end.

(** The items of [n1, n2, ...] *)
Definition parse_sql_items (body : string) : option (list Z) :=
  match split_comma body with
  | p :: qs =>
      match parse_sql_int p, parse_sql_tail qs with
      | Some z, Some zs => Some (z :: zs)
      | _, _ => None
      end
  | [] => None
  end.

Definition parse_where_rest (rest : string) : option (list Z) :=
  match strip_prefix " = " rest with
  | Some n => option_map (fun z => [z]) (parse_sql_int n)
  | None =>
      match strip_prefix " IN (" rest with
      | Some r => match strip_close r with Some body => parse_sql_items body | None => None end
      | None => None
      end
  end.

Definition nl : string := String (ascii_of_nat 10) EmptyString.

(** The text of the queries before [{where_clause}]. *)
Definition chemspider_join : string :=
  "SELECT J.ConsolidatedUnknownCompoundItemsID AS FeatureID, C.ChemSpiderID AS ChemSpiderID, J.DeltaMassInPPM AS DeltaMass, J.MzLogicScore AS Score, C.MolStructure AS Structure, C.Name AS Name, C.Formula AS Formula, C.MolecularWeight AS MolecularWeight, C.InChi AS InChi, C.InChiKey AS InChiKey" +:+ nl +:+
  "                        FROM ConsolidatedUnknownCompoundItemsChemSpiderResultItems J JOIN ChemSpiderResultItems C " +:+ nl +:+
  "                        ON J.ChemSpiderResultItemsChemSpiderID = C.ChemSpiderID" +:+ nl +:+
  "                        WHERE ".

Definition mzcloud_join : string :=
  "SELECT J.ConsolidatedUnknownCompoundItemsID AS FeatureID, M.MzCloudId AS MzCloudID, M.KeggId as KeggId, M.Name AS Name, M.Formula AS Formula, M.Mass AS MolecularWeight, M.MolStructure as Structure, J.DeltaMassInPPM AS DeltaMass, J.MzLibraryMatchFactor AS Score, J.Confidence AS Confidence, J.CompoundMatchStatus AS Status" +:+ nl +:+
  "                        FROM ConsolidatedUnknownCompoundItemsMzCloudSearchResultItems J JOIN MzCloudSearchResultItems M " +:+ nl +:+
  "                        ON J.MzCloudSearchResultItemsID = M.ID" +:+ nl +:+
  "                        WHERE ".

Definition compound_spectra_query : string :=
  "SELECT BHI.ConsolidatedUnknownCompoundItemsID AS FeatureID, MS.WorkflowID AS WorkflowID, MS.ID AS SpectrumID, MS.FileID AS FileID, MS.MSOrder AS MSn, MS.Polarity AS Polarity, MS.RetentionTime AS RetentionTime, MS.ResolutionAtMass200 AS Resolution, MS.ActivationType AS ActivationType, MS.ScanType AS ScanType, MS.Ionization AS Ionization, MS.MassAnalyzer AS MassAnalyzer, MS.Spectrum AS Spectrum" +:+ nl +:+
  "                FROM ConsolidatedUnknownCompoundItemsBestHitIonInstanceItems BHI " +:+ nl +:+
  "                        JOIN BestHitIonInstanceItemsMassSpectrumItems BHIMS " +:+ nl +:+
  "                            ON BHI.BestHitIonInstanceItemsWorkflowID = BHIMS.BestHitIonInstanceItemsWorkflowID " +:+ nl +:+
  "                                AND BHI.BestHitIonInstanceItemsID = BHIMS.BestHitIonInstanceItemsID" +:+ nl +:+
  "                        JOIN MassSpectrumItems MS" +:+ nl +:+
  "                            ON BHIMS.MassSpectrumItemsWorkflowID = MS.WorkflowID" +:+ nl +:+
  "                                AND BHIMS.MassSpectrumItemsID = MS.ID" +:+ nl +:+
  "                WHERE ".

Section PyDXClass.

(** The SQLAlchemy engine, a pandas DataFrame, and the contents of the
    database file at the time it is read. *)
Variable engine_t : Type.
Variable table : Type.
Variable db_state : Type.
(** [pd.read_sql_table(name, con=engine, index_col=...)] and
    [pd.read_sql_query(sql, con=engine)]. *)
Variable read_sql_table : engine_t -> db_state -> string -> option string -> result table.
Variable read_sql_query : engine_t -> db_state -> string -> result table.

(** A [PyDX] object: its [path], its [engine] and the cache attributes
    set so far, by name. *)
Record PyDX := mkPyDX {
  path : string;
  engine : engine_t;
  attrs : gmap string table }.

(** A cached table property, e.g. [inputs] (lines 36-40):
    [if not hasattr(self, attr): self.attr = pd.read_sql_table(...)];
    [return self.attr]. *)
Definition cached_table (p : pydx_table) (self : PyDX) (db : db_state) : result table * PyDX :=
  let '(attr, name, index_col) := table_source p in
  match attrs self !! attr with
  | Some t => (Ok t, self)
  | None =>
      match read_sql_table (engine self) db name index_col with
      | Ok t => (Ok t, mkPyDX (path self) (engine self) (<[attr := t]> (attrs self)))
      | Err e => (Err e, self)
      end
  end.

(** [get_chemspider_hits_for_feature] (lines 86-97) *)
Definition get_chemspider_hits_for_feature (self : PyDX) (db : db_state) (feature_ids : list Z)
  : xresult table :=
  where_clause <-- of_result (feature_where_clause "J.ConsolidatedUnknownCompoundItemsID" feature_ids) ;;
  let join := chemspider_join +:+ where_clause in
  of_result (read_sql_query (engine self) db join).

(** [get_mzcloud_search_results_for_feature] (lines 124-135) *)
Definition get_mzcloud_search_results_for_feature (self : PyDX) (db : db_state)
    (feature_ids : list Z) : xresult table :=
  where_clause <-- of_result (feature_where_clause "J.ConsolidatedUnknownCompoundItemsID" feature_ids) ;;
  let join := mzcloud_join +:+ where_clause in
  of_result (read_sql_query (engine self) db join).

(** [get_compound_spectra] (lines 156-172): the last line evaluates
    [idxa.engine], and no name [idxa] is bound in db.py. *)
Definition get_compound_spectra (self : PyDX) (db : db_state) (feature_ids : list Z)
  : xresult table :=
  where_clause <-- of_result (feature_where_clause "BHI.ConsolidatedUnknownCompoundItemsID" feature_ids) ;;
  let Q := compound_spectra_query +:+ where_clause in
  XErr (NameError "idxa").

End PyDXClass.

(* ------------------------------------------------------------------ *)
(** ** Consumers of the decoded arrays: src/pydx/analysis.py *)

(** numpy on 1-D arrays of ints, booleans or floats, as lists. *)

(** [np.isin(a, vs)] *)
Definition np_isin (a vs : list Z) : list bool :=
  map (fun x => existsb (Z.eqb x) vs) a.

(** [a == c] for a scalar [c] *)
Definition np_eq_scalar (a : list Z) (c : Z) : list bool := map (fun x => Z.eqb x c) a.

Definition msg_broadcast : string := "operands could not be broadcast together".

(** [a | b] with numpy broadcasting: equal lengths, or one operand of
    length 1. *)
Definition np_or (a c : list bool) : xresult (list bool) :=
  if Nat.eqb (length a) (length c) then XOk (zip_with orb a c)
  else if Nat.eqb (length a) 1 then XOk (map (orb (hd false a)) c)
  else if Nat.eqb (length c) 1 then XOk (map (fun x => orb x (hd false c)) a)
  else XErr (PyExc (ValueError msg_broadcast)).

Definition msg_bool_index : string := "boolean index did not match indexed array along axis 0".

(** [a[mask]] for a boolean [mask]: its length must be that of [a]. *)
Definition np_mask {A} (a : list A) (mask : list bool) : xresult (list A) :=
  if Nat.eqb (length a) (length mask) then XOk (map fst (List.filter snd (zip a mask)))
  else XErr (IndexError msg_bool_index).

(** [mask.sum()] on a boolean array *)
Definition count_true (mask : list bool) : nat := length (List.filter id mask).

(** The entries of [a] at the [true] places of [mask] replaced, in order,
    by the values [vs]. *)
Fixpoint mask_fill {A} (a : list A) (mask : list bool) (vs : list A) : list A :=
  match a, mask with
  | x :: a', true :: m' =>
      match vs with
      | v :: vs' => v :: mask_fill a' m' vs'
      | [] => x :: mask_fill a' m' []
      end
  | x :: a', false :: m' => x :: mask_fill a' m' vs
  | _, _ => a
  end.

Definition msg_mask_assign : string :=
  "NumPy boolean array indexing assignment cannot assign input values to the output values where the mask is true".

(** [a[mask] = vs] for an array [vs]: one value per [true] of [mask], or a
    single value broadcast to all of them. *)
Definition np_mask_assign {A} (a : list A) (mask : list bool) (vs : list A) : xresult (list A) :=
  if negb (Nat.eqb (length a) (length mask)) then XErr (IndexError msg_bool_index)
  else if Nat.eqb (length vs) (count_true mask) then XOk (mask_fill a mask vs)
  else match vs with
       | [v] => XOk (mask_fill a mask (repeat v (count_true mask)))
       | _ => XErr (PyExc (ValueError msg_mask_assign))
       end.

(** [a[mask] = v] for a scalar [v]. *)
Definition np_mask_set {A} (a : list A) (mask : list bool) (v : A) : xresult (list A) :=
  if Nat.eqb (length a) (length mask)
  then XOk (zip_with (fun x (m : bool) => if m then v else x) a mask)
  else XErr (IndexError msg_bool_index).

(** A numpy array of one or two dimensions; a 2-D array has [ncols]
    columns and its rows in order. *)
Inductive ndarray (A : Type) :=
| Arr1 (xs : list A)
| Arr2 (ncols : nat) (rows : list (list A)).
Arguments Arr1 {A} xs.
Arguments Arr2 {A} ncols rows.

(** numpy broadcasting of one dimension, and the index read from an
    operand of dimension [d] at output index [i]. *)
Definition bdim (d1 d2 : nat) : option nat :=
  if Nat.eqb d1 d2 then Some d1
  else if Nat.eqb d1 1 then Some d2
  else if Nat.eqb d2 1 then Some d1
  else None.

Definition bidx (d i : nat) : nat := if Nat.eqb d 1 then O else i.

(** A 1-D array of length [n] takes part in a 2-D operation as one row. *)
Definition shape2 {A} (a : ndarray A) : nat * nat * list (list A) :=
  match a with
  | Arr1 xs => (1%nat, length xs, [xs])
  | Arr2 c rows => (length rows, c, rows)
  end.

Definition msg_axis1 : string := "axis 1 is out of bounds for array of dimension 1".

Section Analysis.

(** float64 values and the numpy operations analysis.py applies to
    them: the constants 0.0 and 1.0, [x > 0], [np.log10], [-], [*], [/],
    and [np.sum] over a sequence of values. *)
Variable float_t : Type.
Variables f0 f1 : float_t.
Variable fgt0 : float_t -> bool.
Variable log10 : float_t -> float_t.
Variables fsub fmul fdiv : float_t -> float_t -> float_t.
Variable np_sum : list float_t -> float_t.
(** [LogisticRegression().fit(X, y)] then [predict_proba(X)[:, 1]] on the
    one-column [X]; it may raise. *)
Variable lr_fit_predict : list float_t -> list bool -> result (list float_t).

(** [a op b] on float arrays with numpy broadcasting. *)
Definition np_binop (op : float_t -> float_t -> float_t) (a c : ndarray float_t)
  : xresult (ndarray float_t) :=
  match a, c with
  | Arr1 xs, Arr1 ys =>
      match bdim (length xs) (length ys) with
      | Some n =>
          XOk (Arr1 (map (fun j => op (nth (bidx (length xs) j) xs f0)
                                      (nth (bidx (length ys) j) ys f0)) (seq 0 n)))
      | None => XErr (PyExc (ValueError msg_broadcast))
      end
  | _, _ =>
      let '(r1, c1, xs) := shape2 a in
      let '(r2, c2, ys) := shape2 c in
      match bdim r1 r2, bdim c1 c2 with
      | Some r, Some cn =>
          XOk (Arr2 cn (map (fun i =>
                 map (fun j => op (nth (bidx c1 j) (nth (bidx r1 i) xs []) f0)
                                  (nth (bidx c2 j) (nth (bidx r2 i) ys []) f0)) (seq 0 cn))
               (seq 0 r)))
      | _, _ => XErr (PyExc (ValueError msg_broadcast))
      end
  end.

(** [s - a] for a scalar [s] *)
Definition np_rsub (s : float_t) (a : ndarray float_t) : ndarray float_t :=
  match a with
  | Arr1 xs => Arr1 (map (fsub s) xs)
  | Arr2 c rows => Arr2 c (map (map (fsub s)) rows)
  end.

(** [np.sum(a, axis=1)] *)
Definition np_sum_axis1 (a : ndarray float_t) : xresult (list float_t) :=
  match a with
  | Arr1 _ => XErr (PyExc (ValueError msg_axis1))
  | Arr2 _ rows => XOk (map np_sum rows)
  end.

(** [np.sum(a)] over all entries *)
Definition np_sum_all (a : ndarray float_t) : float_t :=
  match a with
  | Arr1 xs => np_sum xs
  | Arr2 _ rows => np_sum (concat rows)
  end.

(** [probablistic_subset_likelihood] (analysis.py, lines 4-22) *)
Definition probablistic_subset_likelihood (p_1 p_2 : ndarray float_t) : xresult (list float_t) :=
  prod <-- np_binop fmul p_1 (np_rsub f1 p_2) ;;
  num <-- np_sum_axis1 prod ;;
  let den := np_sum_all p_1 in
  XOk (map (fun x => fdiv x den) num).

(** [compute_peak_likelihood] (analysis.py, lines 24-59), on 1-D arrays. *)
Definition compute_peak_likelihood (peak_area : list float_t) (gap_status gap_fill_method : list Z)
  : xresult (list float_t) :=
  let positive_gap_fill_codes := [0; 1; 64; 128] in
  feature_targets <-- np_or (np_isin gap_fill_method positive_gap_fill_codes)
                            (np_eq_scalar gap_status 1) ;;
  let nonzero := map fgt0 peak_area in
  nonzero_targets <-- np_mask feature_targets nonzero ;;
  nonzero_area_values <-- np_mask peak_area nonzero ;;
  let nonzero_areas := map log10 nonzero_area_values in
  if Nat.eqb (count_true nonzero_targets) 0 then XOk (repeat f0 (length feature_targets))
  else if Nat.eqb (count_true nonzero_targets) (length nonzero_targets)
  then XOk (repeat f1 (length feature_targets))
  else
    lr_output <-- of_result (lr_fit_predict nonzero_areas nonzero_targets) ;;
    let probabilities := repeat f0 (length feature_targets) in
    probabilities <-- np_mask_assign probabilities nonzero lr_output ;;
    probabilities <-- np_mask_set probabilities (map negb nonzero) f0 ;;
    XOk probabilities.

End Analysis.

(* ------------------------------------------------------------------ *)
(** ** Record groups *)

(** The [k] consecutive [d]-byte groups of a buffer. *)
Fixpoint groups {A} (d k : nat) (l : list A) : list (list A) :=
  match k with
  | O => []
  | S k' => firstn d l :: groups d k' (skipn d l)
  end.

(** Re-serialisation of one 64-bit value: [struct.pack('<d', v)] on the
    bit pattern [v]. *)
Fixpoint le_bytes (n : nat) (v : Z) : bytes :=
  match n with
  | O => []
  | S n' => b (v mod 256) :: le_bytes n' (v / 256)
  end.

(** Re-serialisation of (value, flag) pairs as [struct.pack('<dB', v, f)]. *)
Definition serialize_records (recs : list (float64 * Z)) : bytes :=
  concat (map (fun '(v, f) => le_bytes 8 v ++ [b f]) recs).

(** The labels of gap fill method codes (parsers.py, lines 10-24). *)
Definition gap_fill_status_codes : list (Z * string) :=
  [(0, "Unknown status"); (1, "Original ion used"); (2, "Unable to fill");
   (4, "Filled by arbitrary value"); (8, "Filled by trace area");
   (16, "Filled by simulated peak"); (32, "Filled by spectrum noise");
   (64, "Filled by matching ion"); (128, "Filled by re-detected peak");
   (256, "Imputed by low area value"); (512, "Imputed by group median");
   (1024, "Imputed by Random Forest"); (2048, "Skipped")].

(** Stride-9 positions: value bytes and flag bytes. *)
Definition val9 (i : nat) : bool := negb (Nat.eqb (i mod 9) 8).
Definition flag9 (i : nat) : bool := Nat.eqb (i mod 9) 8.

(** The value of one 9-byte record and its flag. *)
Definition record_value (g : bytes) : float64 := le_unsigned (firstn 8 g).
Definition record_flag (g : bytes) : Z := byte_val (nth 8 g x00).



(** A retention-time prefix announcing three values. *)
Definition prefix3 : bytes := [b 3; b 0; b 0; b 0].

(** A stride-5 group holding the 32-bit code [c] and a zero fifth byte. *)
Definition status_group (c : Z) : bytes := le_bytes 4 c ++ [x00].

(* ------------------------------------------------------------------ *)
(** ** Examples *)

Example gap_status_300 :
  decode_gap_status [b 44; b 1; b 0; b 0; b 7]
  = Err (OverflowError "Python integer 300 out of bounds for uint8").
Proof. reflexivity. Qed.

Example gap_fill_status_300 :
  decode_gap_fill_status [b 44; b 1; b 0; b 0; b 7] = Ok [300].
Proof. reflexivity. Qed.

Example gap_status_neg :
  decode_gap_fill_status [b 255; b 255; b 255; b 255; b 0]
  = Err (OverflowError "Python integer -1 out of bounds for uint16").
Proof. reflexivity. Qed.

Example gap_status_4 :
  decode_gap_status [b 3; b 0; b 0; b 0] = Ok [3].
Proof. reflexivity. Qed.

Example ratings_ex :
  decode_peak_ratings [b 1; b 0; b 0; b 0; b 0; b 0; b 0; b 0; b 9] = Ok ([1], [9]).
Proof. reflexivity. Qed.

Example rt_ex :
  decode_retention_times [b 1; b 0; b 0; b 0; b 2; b 0; b 0; b 0; b 0; b 0; b 0; b 0]
  = Ok [2].
Proof. reflexivity. Qed.

(* ------------------------------------------------------------------ *)
(** ** Lemmas on the helpers *)

Section Helpers.
Context {A : Type}.

Lemma keep_enum_app (p : nat -> bool) i (l1 l2 : list A) :
  keep_enum p i (l1 ++ l2) = keep_enum p i l1 ++ keep_enum p (i + length l1) l2.
Proof.
  revert i; induction l1 as [|x r IH]; intros i; simpl.
  - by rewrite Nat.add_0_r.
  - rewrite IH. replace (S i + length r)%nat with (i + S (length r))%nat by lia.
    destruct (p i); reflexivity.
Qed.

Lemma keep_enum_shift (p : nat -> bool) d (Hp : forall n, p (n + d)%nat = p n) i (l : list A) :
  keep_enum p (i + d) l = keep_enum p i l.
Proof.
  revert i; induction l as [|x r IH]; intros i; simpl; [done|].
  rewrite Hp. replace (S (i + d)) with (S i + d)%nat by lia. by rewrite IH.
Qed.

Lemma length_groups d k (l : list A) : length (groups d k l) = k.
Proof. revert l; induction k; intros l; simpl; auto. Qed.

(** Splitting a buffer of at most [d * k] bytes into its groups commutes
    with the periodic filter. *)
Lemma keep_enum_groups (p : nat -> bool) d (Hp : forall n, p (n + d)%nat = p n) k (l : list A) :
  (length l <= d * k)%nat ->
  keep_enum p 0 l = concat (map (keep_enum p 0) (groups d k l)).
Proof.
  revert l; induction k as [|k IH]; intros l Hl; simpl.
  - rewrite Nat.mul_0_r in Hl. destruct l; simpl in *; [done | lia].
  - rewrite <- (firstn_skipn d l) at 1. rewrite keep_enum_app.
    rewrite length_firstn. simpl.
    assert (Hk : (length (skipn d l) <= d * k)%nat) by (rewrite length_skipn; lia).
    rewrite <- (IH _ Hk). f_equal.
    destruct (Nat.le_ge_cases d (length l)) as [Hd|Hd].
    + replace (min d (length l)) with d by lia.
      pose proof (keep_enum_shift p d Hp 0 (skipn d l)) as Hs. simpl in Hs. by rewrite Hs.
    + by rewrite !skipn_all2 by lia.
Qed.

Lemma groups_slices {B} (f : list A -> B) d k (l : list A) :
  map f (groups d k l) = map (fun i => f (py_slice l (d * i) (d * i + d))) (seq 0 k).
Proof.
  revert l; induction k as [|k IH]; intros l; simpl; [done|].
  unfold py_slice at 1. rewrite Nat.mul_0_r, Nat.add_0_l, Nat.sub_0_r. simpl.
  f_equal. rewrite IH, <- seq_shift, map_map. apply map_ext. intros i.
  unfold py_slice. f_equal.
  replace (d * S i + d - d * S i)%nat with d by lia.
  replace (d * i + d - d * i)%nat with d by lia.
  replace (d * S i)%nat with (d + d * i)%nat by lia.
  by rewrite skipn_skipn, Nat.add_comm.
Qed.

Lemma groups_lengths d k (l : list A) :
  length l = (d * k)%nat -> Forall (fun g => length g = d) (groups d k l).
Proof.
  revert l; induction k as [|k IH]; intros l Hl; simpl; constructor.
  - rewrite length_firstn. lia.
  - apply IH. rewrite length_skipn. lia.
Qed.

End Helpers.

Lemma nth_map_seq {B} (f : nat -> B) k i d :
  (i < k)%nat -> nth i (map f (seq 0 k)) d = f i.
Proof.
  intros Hi. rewrite (nth_indep _ d (f 0%nat)) by (rewrite length_map, length_seq; lia).
  by rewrite map_nth, seq_nth.
Qed.

Lemma concat_groups {A} d k (l : list A) :
  length l = (d * k)%nat -> concat (groups d k l) = l.
Proof.
  revert l; induction k as [|k IH]; intros l Hl; simpl.
  - rewrite Nat.mul_0_r in Hl. by destruct l.
  - rewrite IH by (rewrite length_skipn; lia). apply firstn_skipn.
Qed.

Lemma byte_val_range (x : byte) : 0 <= byte_val x < 256.
Proof. unfold byte_val. pose proof (Byte.to_N_bounded x). lia. Qed.

Lemma b_byte_val (x : byte) : b (byte_val x) = x.
Proof.
  unfold b. rewrite Z.mod_small by apply byte_val_range.
  unfold byte_val. by rewrite N2Z.id, Byte.of_to_N.
Qed.

Lemma le_bytes_le_unsigned (l : bytes) : le_bytes (length l) (le_unsigned l) = l.
Proof.
  induction l as [|x r IH]; simpl; [done|].
  pose proof (byte_val_range x).
  rewrite (Z.mul_comm 256), Z_mod_plus_full, Z.mod_small by lia.
  rewrite Z.div_add, Z.div_small, Z.add_0_l by lia.
  by rewrite b_byte_val, IH.
Qed.

Lemma le_unsigned_range (l : bytes) : 0 <= le_unsigned l < 2 ^ (8 * Z.of_nat (length l)).
Proof.
  induction l as [|x r IH]; [simpl; lia|].
  cbn [le_unsigned length]. rewrite Nat2Z.inj_succ.
  pose proof (byte_val_range x).
  replace (8 * Z.succ (Z.of_nat (length r))) with (8 + 8 * Z.of_nat (length r)) by lia.
  rewrite Z.pow_add_r by lia. change (2 ^ 8) with 256. lia.
Qed.

Lemma uint_in_range_spec w v : uint_in_range w v = true <-> 0 <= v < 2 ^ w.
Proof. unfold uint_in_range. rewrite Bool.andb_true_iff, Z.leb_le, Z.ltb_lt. lia. Qed.

(** [np.array(xs, dtype=np.uintW)] succeeds exactly when every value is
    in range, and then stores the values unchanged. *)
Lemma np_array_uint_Ok w xs out :
  np_array_uint w xs = Ok out <-> Forall (fun v => 0 <= v < 2 ^ w) xs /\ out = xs.
Proof.
  unfold np_array_uint. destruct (List.find _ xs) as [v|] eqn:E; split.
  - discriminate.
  - intros [HF ->]. apply find_some in E as [Hin Hp].
    apply (proj1 (List.Forall_forall _ _) HF), uint_in_range_spec in Hin.
    by rewrite Hin in Hp.
  - intros H. inversion H; subst. split; [|done].
    apply List.Forall_forall. intros v Hin. apply uint_in_range_spec.
    pose proof (find_none _ _ E v Hin) as Hv. cbv beta in Hv. revert Hv. destruct (uint_in_range w v); simpl; congruence.
  - by intros [_ ->].
Qed.

Lemma np_array_uint_ok w xs :
  Forall (fun v => 0 <= v < 2 ^ w) xs -> np_array_uint w xs = Ok xs.
Proof. intros HF. by apply np_array_uint_Ok. Qed.

(** A value out of range makes the cast raise [OverflowError], naming
    the first such value. *)
Lemma np_array_uint_overflow w xs v :
  In v xs -> ~ (0 <= v < 2 ^ w) ->
  exists v', In v' xs /\ ~ (0 <= v' < 2 ^ w) /\
    np_array_uint w xs = Err (OverflowError (msg_uint_overflow w v')).
Proof.
  intros Hin Hv. unfold np_array_uint. destruct (List.find _ xs) as [v'|] eqn:E.
  - apply find_some in E as [Hin' Hp]. exists v'. split; [done|split; [|done]].
    rewrite <- uint_in_range_spec. cbv beta in Hp. revert Hp. destruct (uint_in_range w v'); simpl; congruence.
  - pose proof (find_none _ _ E v Hin) as Hp. exfalso. apply Hv, uint_in_range_spec.
    cbv beta in Hp. revert Hp. destruct (uint_in_range w v); simpl; congruence.
Qed.

Lemma np_array_uint_Err w xs e :
  np_array_uint w xs = Err e ->
  exists v, In v xs /\ ~ (0 <= v < 2 ^ w) /\ e = OverflowError (msg_uint_overflow w v).
Proof.
  unfold np_array_uint. destruct (List.find _ xs) as [v|] eqn:E; [|discriminate].
  intros H. inversion H; subst. apply find_some in E as [Hin Hp].
  exists v. split; [done|split; [|done]].
  rewrite <- uint_in_range_spec. cbv beta in Hp. revert Hp. destruct (uint_in_range w v); simpl; congruence.
Qed.

(* ------------------------------------------------------------------ *)
(** ** The stride-9 decoders, group by group *)

Lemma val9_period n : val9 (n + 9) = val9 n.
Proof. unfold val9. by rewrite Nat.Div0.add_mod, Nat.Div0.mod_same, Nat.add_0_r, Nat.Div0.mod_mod. Qed.

Lemma flag9_period n : flag9 (n + 9) = flag9 n.
Proof. unfold flag9. by rewrite Nat.Div0.add_mod, Nat.Div0.mod_same, Nat.add_0_r, Nat.Div0.mod_mod. Qed.

Lemma keep_val9_group (g : bytes) : length g = 9%nat -> keep_enum val9 0 g = firstn 8 g.
Proof. intros Hg. do 9 (destruct g as [|? g]; simpl in Hg; try lia). by destruct g. Qed.

Lemma keep_flag9_group (g : bytes) : length g = 9%nat -> keep_enum flag9 0 g = [nth 8 g x00].
Proof. intros Hg. do 9 (destruct g as [|? g]; simpl in Hg; try lia). by destruct g. Qed.

Lemma unpack_doubles_groups (gs : list bytes) :
  Forall (fun g => length g = 9%nat) gs ->
  unpack_doubles (length gs) (concat (map (firstn 8) gs)) = map record_value gs.
Proof.
  induction 1 as [|g gs Hg _ IH]; simpl; [done|].
  assert (H8 : length (firstn 8 g) = 8%nat) by (rewrite length_firstn; lia).
  rewrite firstn_app, H8, Nat.sub_diag, firstn_O, app_nil_r, firstn_all2 by lia.
  rewrite skipn_app, H8, Nat.sub_diag, skipn_O, skipn_all2 by lia.
  by rewrite app_nil_l, IH.
Qed.

Lemma length_concat_firstn8 (gs : list bytes) :
  Forall (fun g => length g = 9%nat) gs ->
  length (concat (map (firstn 8) gs)) = (8 * length gs)%nat.
Proof.
  induction 1 as [|g gs Hg _ IH]; simpl; [done|].
  rewrite length_app, IH, length_firstn. lia.
Qed.

Lemma length_div_mul (l : list byte) d :
  (d <> 0)%nat -> (length l mod d = 0)%nat -> length l = (d * (length l / d))%nat.
Proof. intros Hd Hm. pose proof (Nat.div_mod (length l) d Hd). lia. Qed.

Lemma keep_val9 (blob : bytes) :
  (length blob mod 9 = 0)%nat ->
  keep_enum val9 0 blob = concat (map (firstn 8) (groups 9 (length blob / 9) blob)).
Proof.
  intros Hm. pose proof (length_div_mul blob 9 ltac:(lia) Hm) as Hl.
  rewrite (keep_enum_groups val9 9 val9_period (length blob / 9) blob) by lia. f_equal.
  apply map_ext_in. intros g Hin.
  pose proof (groups_lengths 9 _ _ Hl) as Hg. rewrite List.Forall_forall in Hg.
  by apply keep_val9_group, Hg.
Qed.

Lemma keep_flag9 (blob : bytes) :
  (length blob mod 9 = 0)%nat ->
  keep_enum flag9 0 blob = map (fun g => nth 8 g x00) (groups 9 (length blob / 9) blob).
Proof.
  intros Hm. pose proof (length_div_mul blob 9 ltac:(lia) Hm) as Hl.
  rewrite (keep_enum_groups flag9 9 flag9_period (length blob / 9) blob) by lia.
  pose proof (groups_lengths 9 _ _ Hl) as Hg. clear Hl Hm.
  induction Hg as [|g gs Hg1 _ IH]; simpl; [done|].
  by rewrite keep_flag9_group, IH.
Qed.

(** On a blob of [9 * k] bytes both stride-9 decoders return the value and
    the flag of each 9-byte record, in order. *)
Lemma decode_stride9 (blob : bytes) :
  (length blob mod 9 = 0)%nat ->
  let gs := groups 9 (length blob / 9) blob in
  decode_peak_ratings blob = Ok (map record_value gs, map record_flag gs) /\
  decode_peak_areas blob = Ok (map record_value gs, map record_flag gs).
Proof.
  intros Hm gs.
  pose proof (length_div_mul blob 9 ltac:(lia) Hm) as Hl.
  pose proof (groups_lengths 9 _ _ Hl) as Hg.
  assert (Hv : struct_unpack_d (length (keep_enum val9 0 blob) / 8) (keep_enum val9 0 blob)
               = Ok (map record_value gs)).
  { rewrite keep_val9 by done. fold gs.
    rewrite length_concat_firstn8 by done.
    rewrite (Nat.mul_comm 8), Nat.div_mul by lia.
    unfold struct_unpack_d. rewrite length_concat_firstn8, Nat.eqb_refl by done.
    by rewrite unpack_doubles_groups. }
  assert (Hf : struct_unpack_B (length (keep_enum flag9 0 blob)) (keep_enum flag9 0 blob)
               = Ok (map byte_val (map (fun g => nth 8 g x00) gs))).
  { unfold struct_unpack_B. by rewrite Nat.eqb_refl, keep_flag9. }
  assert (Hn : np_array_uint 8 (map byte_val (map (fun g => nth 8 g x00) gs))
               = Ok (map record_flag gs)).
  { rewrite np_array_uint_ok.
    - by rewrite map_map.
    - apply List.Forall_forall. intros v Hin. apply in_map_iff in Hin as [x [<- _]].
      change (2 ^ 8) with 256. apply byte_val_range. }
  unfold decode_peak_ratings, decode_peak_areas.
  rewrite Hm. cbn [negb Nat.eqb].
  change (fun i => negb (Nat.eqb (i mod 9) 8)) with val9.
  change (fun i => Nat.eqb (i mod 9) 8) with flag9.
  rewrite Hv. cbn [rbind]. rewrite Hf. cbn [rbind]. by rewrite Hn.
Qed.

(* ------------------------------------------------------------------ *)
(** ** The stride-5 decoders, group by group *)







Lemma signed_words_groups (kept : bytes) m :
  length kept = (4 * m)%nat -> signed_words kept = map le_signed (groups 4 m kept).
Proof.
  intros Hl. unfold signed_words, py_range_step. rewrite Hl, map_map.
  replace ((4 * m + 4 - 1) / 4)%nat with m.
  - symmetry. apply (groups_slices le_signed 4 m kept).
  - replace (4 * m + 4 - 1)%nat with (3 + m * 4)%nat by lia.
    rewrite Nat.div_add by lia. simpl. lia.
Qed.



Lemma le_signed_range (l : bytes) :
  length l = 4%nat -> -2 ^ 31 <= le_signed l < 2 ^ 31.
Proof.
  intros Hl. pose proof (le_unsigned_range l) as Hr. rewrite Hl in Hr.
  unfold le_signed. rewrite Hl. simpl Nat.eqb. cbv iota.
  change (8 * Z.of_nat 4) with 32 in *. change (32 - 1) with 31.
  destruct (Z.ltb_spec (le_unsigned l) (2 ^ 31)); lia.
Qed.

Lemma signed_words_range (kept : bytes) :
  (length kept mod 4 = 0)%nat -> Forall (fun v => -2 ^ 31 <= v < 2 ^ 31) (signed_words kept).
Proof.
  intros Hm. assert (Hl : length kept = (4 * (length kept / 4))%nat).
  { pose proof (Nat.div_mod (length kept) 4 ltac:(lia)). lia. }
  rewrite (signed_words_groups _ _ Hl).
  pose proof (groups_lengths 4 _ _ Hl) as Hg.
  induction Hg as [|g gs Hg1 _ IH]; simpl; constructor; [|done].
  by apply le_signed_range.
Qed.

Lemma combine_map_same {X Y W} (f : X -> Y) (g : X -> W) (l : list X) :
  combine (map f l) (map g l) = map (fun x => (f x, g x)) l.
Proof. induction l as [|x r IH]; simpl; [done|]. by rewrite IH. Qed.

Lemma record_bytes (g : bytes) :
  length g = 9%nat -> le_bytes 8 (record_value g) ++ [b (record_flag g)] = g.
Proof.
  intros Hg. unfold record_value, record_flag.
  assert (H8 : length (firstn 8 g) = 8%nat) by (rewrite length_firstn; lia).
  rewrite <- H8 at 1. rewrite le_bytes_le_unsigned, b_byte_val.
  do 9 (destruct g as [|? g]; simpl in Hg; try lia). by destruct g.
Qed.

Lemma serialize_groups (gs : list bytes) :
  Forall (fun g => length g = 9%nat) gs ->
  serialize_records (map (fun g => (record_value g, record_flag g)) gs) = concat gs.
Proof.
  unfold serialize_records. induction 1 as [|g gs Hg _ IH]; [done|].
  cbn [map concat]. by rewrite record_bytes, IH.
Qed.

(* ================================================================== *)
(** * Properties of the interleaved record decoders *)


(** C1: once the length check passes, the stride-5 decoders do not
    narrow by truncation.  The gap-fill-status decoder returns the signed
    32-bit words unchanged when all of them lie in [[0, 2^16)], and the
    gap-status decoder when all lie in [[0, 2^8)]; as soon as one word is
    out of the decoder's range it raises [OverflowError].  So no output
    element is ever [v mod 2^w] for a word [v] outside [[0, 2^w)]. *)
Theorem stride5_narrowing_range_checked (blob : bytes) :
  (length (drop_every_5th blob) mod 4 = 0)%nat ->
  let ws := signed_words (drop_every_5th blob) in
  Forall (fun v => -2 ^ 31 <= v < 2 ^ 31) ws /\
  (forall out, decode_gap_fill_status blob = Ok out <->
     Forall (fun v => 0 <= v < 2 ^ 16) ws /\ out = ws) /\
  (forall out, decode_gap_status blob = Ok out <->
     Forall (fun v => 0 <= v < 2 ^ 8) ws /\ out = ws) /\
  (forall v, In v ws -> ~ (0 <= v < 2 ^ 16) ->
     exists v', decode_gap_fill_status blob = Err (OverflowError (msg_uint_overflow 16 v'))) /\
  (forall v, In v ws -> ~ (0 <= v < 2 ^ 8) ->
     exists v', decode_gap_status blob = Err (OverflowError (msg_uint_overflow 8 v'))).
Proof.
  intros Hm ws. split; [by apply signed_words_range|].
  unfold decode_gap_fill_status, decode_gap_status.
  rewrite Hm. cbn [negb Nat.eqb]. fold ws.
  split; [intros out; apply np_array_uint_Ok|].
  split; [intros out; apply np_array_uint_Ok|].
  split; intros v Hin Hv;
    destruct (np_array_uint_overflow _ _ _ Hin Hv) as (v' & _ & _ & ->); eauto.
Qed.

Lemma stride5_narrowing_range_checked_witness :
  (length (drop_every_5th [b 44; b 1; b 0; b 0; b 9]) mod 4 = 0)%nat /\
  decode_gap_fill_status [b 44; b 1; b 0; b 0; b 9] = Ok [300] /\
  exists v', decode_gap_status [b 44; b 1; b 0; b 0; b 9]
             = Err (OverflowError (msg_uint_overflow 8 v')).
Proof.
  pose proof (stride5_narrowing_range_checked [b 44; b 1; b 0; b 0; b 9]
                ltac:(reflexivity)) as H.
  cbv zeta in H. destruct H as (_ & Hf & _ & _ & Hs).
  split; [reflexivity|split].
  - apply Hf. split; [|reflexivity].
    apply List.Forall_forall. intros v Hv. vm_compute in Hv.
    destruct Hv as [<-|[]]. lia.
  - apply (Hs 300); [vm_compute; left; reflexivity | lia].
Defined.

(** C1 (failing input): the group [[44; 1; 0; 0; 0]] holds the word 300,
    whose low byte is 44; the gap-status decoder raises [OverflowError] on
    it instead of returning [[44]], while the gap-fill-status decoder
    returns [[300]]. *)
Theorem gap_status_300_overflows :
  le_signed [b 44; b 1; b 0; b 0] = 300 /\
  300 mod 2 ^ 8 = 44 /\
  decode_gap_status [b 44; b 1; b 0; b 0; b 0]
  = Err (OverflowError "Python integer 300 out of bounds for uint8") /\
  decode_gap_fill_status [b 44; b 1; b 0; b 0; b 0] = Ok [300].
Proof. repeat split; reflexivity. Qed.

(** C2: on a blob of [9 * k] bytes both stride-9 decoders return [k]
    values and [k] flags; record [i]'s value is the little-endian 64-bit
    pattern of bytes [9i .. 9i+7] and its flag is byte [9i+8]; writing each
    pair back as 8 value bytes and the flag byte gives the blob again. *)
Theorem stride9_records_roundtrip (blob : bytes) :
  (length blob mod 9 = 0)%nat ->
  forall dec, In dec [decode_peak_ratings; decode_peak_areas] ->
  exists vals flags,
    dec blob = Ok (vals, flags) /\
    length vals = (length blob / 9)%nat /\ length flags = (length blob / 9)%nat /\
    (forall i, (i < length blob / 9)%nat ->
       nth i vals 0 = le_unsigned (py_slice blob (9 * i) (9 * i + 8)) /\
       nth i flags 0 = byte_val (nth (9 * i + 8) blob x00)) /\
    serialize_records (combine vals flags) = blob.
Proof.
  intros Hm dec Hdec.
  destruct (decode_stride9 blob Hm) as [Hr Ha].
  set (gs := groups 9 (length blob / 9) blob) in *.
  pose proof (length_div_mul blob 9 ltac:(lia) Hm) as Hl.
  pose proof (groups_lengths 9 _ _ Hl) as Hg. fold gs in Hg.
  exists (map record_value gs), (map record_flag gs).
  split; [simpl in Hdec; destruct Hdec as [<-|[<-|[]]]; assumption|].
  unfold gs. rewrite !length_map.
  split; [apply length_groups|split; [apply length_groups|split]].
  - intros i Hi. rewrite !groups_slices, !nth_map_seq by done.
    unfold record_value, record_flag, py_slice. split.
    + f_equal. rewrite firstn_firstn. f_equal. lia.
    + rewrite nth_firstn. replace (8 <? 9 * i + 9 - 9 * i)%nat with true
        by (symmetry; apply Nat.ltb_lt; lia).
      by rewrite nth_skipn.
  - fold gs. rewrite combine_map_same, serialize_groups by done.
    by apply concat_groups.
Qed.

Lemma stride9_records_roundtrip_witness :
  (length [b 1; b 2; b 3; b 4; b 5; b 6; b 7; b 8; b 9] mod 9 = 0)%nat /\
  exists vals flags,
    decode_peak_areas [b 1; b 2; b 3; b 4; b 5; b 6; b 7; b 8; b 9] = Ok (vals, flags) /\
    serialize_records (combine vals flags) = [b 1; b 2; b 3; b 4; b 5; b 6; b 7; b 8; b 9].
Proof.
  split; [reflexivity|].
  destruct (stride9_records_roundtrip [b 1; b 2; b 3; b 4; b 5; b 6; b 7; b 8; b 9]
              ltac:(reflexivity) decode_peak_areas ltac:(simpl; auto))
    as (vals & flags & Hd & _ & _ & _ & Hs).
  exists vals, flags. split; assumption.
Defined.

(** C5: on a blob whose length is not a multiple of 9 both stride-9
    decoders fail on the length assertion (a MalformedLength failure). *)
Theorem stride9_bad_length_fails (blob : bytes) :
  (length blob mod 9 <> 0)%nat ->
  decode_peak_ratings blob = Err (AssertionError msg_multiple_of_9) /\
  decode_peak_areas blob = Err (AssertionError msg_multiple_of_9) /\
  error_kind (AssertionError msg_multiple_of_9) = MalformedLength.
Proof.
  intros Hm. unfold decode_peak_ratings, decode_peak_areas.
  apply Nat.eqb_neq in Hm. rewrite Hm. auto.
Qed.

Lemma stride9_bad_length_fails_witness :
  (length [b 1; b 2; b 3; b 4; b 5; b 6; b 7; b 8] mod 9 <> 0)%nat /\
  decode_peak_ratings [b 1; b 2; b 3; b 4; b 5; b 6; b 7; b 8]
  = Err (AssertionError msg_multiple_of_9).
Proof.
  split; [simpl; lia|].
  exact (proj1 (stride9_bad_length_fails [b 1; b 2; b 3; b 4; b 5; b 6; b 7; b 8]
                  ltac:(simpl; lia))).
Defined.









(* ================================================================== *)
(** * Properties of the length-prefixed array decoder *)

Lemma unpack_doubles_groups8 n (buf : bytes) :
  unpack_doubles n buf = map le_unsigned (groups 8 n buf).
Proof. revert buf; induction n as [|n IH]; intros buf; simpl; [done|]. by rewrite IH. Qed.

(** C3: [decode_retention_times] reads the little-endian unsigned count
    [n] of the first 4 bytes; it fails, with a MalformedLength failure,
    exactly when the remaining byte count is not [8 * n], and otherwise
    returns exactly [n] values, the [i]-th read little-endian from bytes
    [4 + 8i .. 4 + 8i + 7].  With [n = 3], 24 further bytes give 3 values
    and 16 further bytes fail. *)
Theorem retention_times_length_prefix :
  (forall blob : bytes,
    let n := le_unsigned (firstn 4 blob) in
    match decode_retention_times blob with
    | Ok vals =>
        Z.of_nat (length blob) - 4 = 8 * n /\ Z.of_nat (length vals) = n /\
        vals = map (fun i => le_unsigned (py_slice blob (4 + 8 * i) (4 + 8 * i + 8)))
                   (seq 0 (Z.to_nat n))
    | Err e =>
        Z.of_nat (length blob) - 4 <> 8 * n /\ error_kind e = MalformedLength
    end) /\
  (exists vals, decode_retention_times (prefix3 ++ repeat x00 24) = Ok vals /\
     length vals = 3%nat) /\
  (exists e, decode_retention_times (prefix3 ++ repeat x00 16) = Err e /\
     error_kind e = MalformedLength).
Proof.
  split; [|split; eexists; split; reflexivity].
  intros blob n.
  assert (Hn : 0 <= n) by apply le_unsigned_range.
  unfold decode_retention_times. fold n.
  destruct (Z.eqb_spec ((Z.of_nat (length blob) - 4) mod 8) 0) as [H8|H8]; cbn [negb].
  2:{ split; [|reflexivity]. intros Heq. apply H8. rewrite Heq.
      rewrite Z.mul_comm. apply Z_mod_mult. }
  assert (H4 : (4 <= length blob)%nat).
  { destruct blob as [|x0 [|x1 [|x2 [|x3 r]]]]; simpl in H8; try discriminate; simpl; lia. }
  unfold struct_unpack_d. rewrite length_skipn.
  destruct (Nat.eqb_spec (length blob - 4) (8 * Z.to_nat n)) as [Hl|Hl]; cbn [rbind].
  - split; [lia|]. unfold np_array_float64.
    rewrite unpack_doubles_groups8, length_map, length_groups. split; [lia|].
    rewrite groups_slices. apply map_ext. intros i. unfold py_slice.
    rewrite skipn_skipn. replace (8 * i + 4)%nat with (4 + 8 * i)%nat by lia. f_equal.
  - split; [|reflexivity]. lia.
Qed.

(* ================================================================== *)
(** * Width of the gap-fill-status output *)

(** C4 (counterexample): the gap-fill-status decoder returns the codes
    1024 ("Imputed by Random Forest") and 2048 ("Skipped") unchanged. *)
Lemma gap_fill_status_keeps_high_codes :
  decode_gap_fill_status (status_group 1024) = Ok [1024] /\
  decode_gap_fill_status (status_group 2048) = Ok [2048].
Proof. split; reflexivity. Qed.

(** C4 (amended): the gap-fill-status decoder builds a 16-bit output,
    so every gap fill method code of [gap_fill_status_codes], 1024 and
    2048 included, is decoded unchanged. *)
Theorem gap_fill_status_codes_lossless :
  Forall (fun '(c, _) => decode_gap_fill_status (status_group c) = Ok [c])
         gap_fill_status_codes.
Proof. repeat constructor. Qed.

(* ================================================================== *)
(** * Properties of the XML extractors *)

Section XmlProperties.

Variable float_t : Type.
Variable py_float : string -> option float_t.
Variable zip_first_text : bytes -> result string.
Variable xml_fromstring : string -> result element.
Variable b64decode : string -> result bytes.

Local Abbreviation unzip := (unzip_xml zip_first_text xml_fromstring).
Local Abbreviation spectrum := (decode_spectrum float_t py_float zip_first_text xml_fromstring).
Local Abbreviation peak_model :=
  (decode_peak_model float_t py_float zip_first_text xml_fromstring b64decode).
Local Abbreviation inner_tree :=
  (peak_model_inner_tree zip_first_text xml_fromstring b64decode).

Lemma spectrum_row_of_ok (pk : element) :
  peak_attrs_ok float_t py_float pk ->
  exists r, spectrum_row_of float_t py_float pk = Ok r /\ row_matches float_t py_float pk r.
Proof.
  unfold peak_attrs_ok, spectrum_attrs. intros H.
  repeat match goal with
         | H : Forall _ (_ :: _) |- _ => inversion H as [|? ? Hk ?]; clear H; subst
         | H : exists s f, _ |- _ => destruct H as (? & ? & ? & ?)
         end.
  assert (Hf : forall k s f, attrib_get pk k = Ok s -> py_float s = Some f ->
                        attrib_float float_t py_float pk k = Ok f).
  { intros k s f Hs Hp. unfold attrib_float. rewrite Hs. cbn [rbind]. by rewrite Hp. }
  unfold spectrum_row_of, row_matches.
  repeat (erewrite Hf by eassumption; cbn [rbind]).
  eexists. split; [reflexivity|]. cbn. repeat split; eapply Hf; eassumption.
Qed.

Lemma map_result_rows (pks : list element) :
  Forall (peak_attrs_ok float_t py_float) pks ->
  exists rows, map_result (spectrum_row_of float_t py_float) pks = Ok rows /\
               Forall2 (row_matches float_t py_float) pks rows.
Proof.
  induction 1 as [|pk pks Hpk _ (rows & Hr & Hm)]; [by exists []|].
  destruct (spectrum_row_of_ok pk Hpk) as (r & Hr1 & Hm1).
  exists (r :: rows). cbn [map_result]. rewrite Hr1. cbn [rbind]. rewrite Hr. by split; [|constructor].
Qed.

Lemma find_float_field (etree : element) k v :
  field_is float_t py_float etree k v -> find_float float_t py_float etree k = Ok v.
Proof.
  intros (c & s & Hc & Ht & Hp). unfold find_float, float_of_text. by rewrite Hc, Ht, Hp.
Qed.

(** C7 (amended): on a blob whose unwrapped XML root has a direct
    PeakCentroids child, the extractor returns an empty table when that
    element has no Peak child, and, when every direct Peak child carries
    X, Y, Z, R and SN attributes that [float] accepts, one row per Peak
    child in document order with X as mz, Y as intensity, Z as the column
    "Z", R as resolution and SN as signalNoiseRatio.  When the root has
    no PeakCentroids child it fails with a missing-field error. *)
Theorem spectrum_table_rows (blob : bytes) (root : element) :
  unzip blob = Ok root ->
  match xml_find root "PeakCentroids" with
  | None => spectrum blob = Err (AttributeError msg_none_findall) /\
            error_kind (AttributeError msg_none_findall) = MissingField
  | Some pc =>
      (xml_findall pc "Peak" = [] -> spectrum blob = Ok []) /\
      (Forall (peak_attrs_ok float_t py_float) (xml_findall pc "Peak") ->
       exists rows, spectrum blob = Ok rows /\
                    Forall2 (row_matches float_t py_float) (xml_findall pc "Peak") rows)
  end.
Proof.
  intros Hu. unfold decode_spectrum. rewrite Hu. cbn [rbind]. unfold spectrum_table.
  destruct (xml_find root "PeakCentroids") as [pc|]; [|done].
  split.
  - intros He. by rewrite He.
  - apply map_result_rows.
Qed.

(** C8 (amended): on a blob whose doubly-unwrapped inner XML has ApexRT,
    LeftRT, RightRT and Width children with numeric text and an
    IntensityRange child with exactly two numeric [double] children, the
    extractor returns exactly those six values.  Otherwise it fails, with
    no result, and the failure is that of the first faulty field in the
    evaluation order IntensityRange, ApexRT, LeftRT, RightRT, Width; an
    absent element is a missing-field failure and a text that [float]
    refuses a parse failure. *)
Theorem peak_model_fields (blob : bytes) (inner : element) :
  inner_tree blob = Ok inner ->
  (forall ir s_lo s_hi lo hi apex left right w,
     xml_find inner "IntensityRange" = Some ir ->
     map text (xml_findall ir "double") = [Some s_lo; Some s_hi] ->
     py_float s_lo = Some lo -> py_float s_hi = Some hi ->
     field_is float_t py_float inner "ApexRT" apex ->
     field_is float_t py_float inner "LeftRT" left ->
     field_is float_t py_float inner "RightRT" right ->
     field_is float_t py_float inner "Width" w ->
     peak_model blob = Ok (Build_peak_shape apex left right w lo hi)) /\
  (match peak_model blob with
   | Ok _ => first_error (peak_field_results float_t py_float inner) = None
   | Err e => first_error (peak_field_results float_t py_float inner) = Some e
   end) /\
  (forall k, xml_find inner k = None ->
     exists e, find_float float_t py_float inner k = Err e /\ error_kind e = MissingField) /\
  (forall k c s, xml_find inner k = Some c -> text c = Some s -> py_float s = None ->
     exists e, find_float float_t py_float inner k = Err e /\ error_kind e = ParseError).
Proof.
  intros Hi. unfold decode_peak_model. rewrite Hi. cbn [rbind].
  split; [|split; [|split]].
  - intros ir s_lo s_hi lo hi apex left right w Hir Hd Hlo Hhi Ha Hl Hr Hw.
    unfold peak_shape_of_tree. rewrite Hir.
    destruct (xml_findall ir "double") as [|t1 [|t2 [|t3 ds]]]; try discriminate.
    injection Hd as Ht1 Ht2. unfold unpack2, float_of_text. rewrite Ht1, Ht2, Hlo, Hhi.
    cbn [rbind]. rewrite (find_float_field _ _ _ Ha), (find_float_field _ _ _ Hl).
    rewrite (find_float_field _ _ _ Hr), (find_float_field _ _ _ Hw). reflexivity.
  - unfold peak_shape_of_tree, peak_field_results, discard.
    destruct (match xml_find inner "IntensityRange" with
              | Some ir => _ | None => _ end); cbn [rbind first_error]; [|reflexivity].
    destruct (find_float float_t py_float inner "ApexRT"); cbn [rbind first_error]; [|reflexivity].
    destruct (find_float float_t py_float inner "LeftRT"); cbn [rbind first_error]; [|reflexivity].
    destruct (find_float float_t py_float inner "RightRT"); cbn [rbind first_error]; [|reflexivity].
    destruct (find_float float_t py_float inner "Width"); cbn [rbind first_error]; reflexivity.
  - intros k Hk. unfold find_float. rewrite Hk. by eexists.
  - intros k c s Hk Ht Hp. unfold find_float, float_of_text. rewrite Hk, Ht, Hp. by eexists.
Qed.

End XmlProperties.

(** C7 (counterexample): the unwrapped XML has a PeakCentroids child with
    two Peak children, yet the extractor returns no table: the second
    Peak has no SN attribute and [pk.attrib['SN']] raises [KeyError]. *)
Lemma spectrum_peak_without_sn_fails :
  unzip_xml fx_zip (fixture_xml [("outer.xml", spectrum_doc_missing_sn)]) outer_blob
  = Ok spectrum_doc_missing_sn /\
  xml_find spectrum_doc_missing_sn "PeakCentroids" <> None /\
  length (xml_findall (Element "PeakCentroids" [] None
                         [peak [("X", "100.5"); ("Y", "2000"); ("Z", "1"); ("R", "60000"); ("SN", "12.5")];
                          peak [("X", "101.5"); ("Y", "300"); ("Z", "1"); ("R", "60000")]]) "Peak") = 2%nat /\
  decode_spectrum Q decimal_float fx_zip (fixture_xml [("outer.xml", spectrum_doc_missing_sn)]) outer_blob
  = Err (KeyError "SN").
Proof. split; [reflexivity|split; [discriminate|split; reflexivity]]. Qed.

Lemma spectrum_table_rows_witness :
  unzip_xml fx_zip (fixture_xml [("outer.xml", spectrum_doc_ok)]) outer_blob = Ok spectrum_doc_ok /\
  exists rows,
    decode_spectrum Q decimal_float fx_zip (fixture_xml [("outer.xml", spectrum_doc_ok)]) outer_blob
    = Ok rows /\ length rows = 2%nat.
Proof.
  split; [reflexivity|].
  pose proof (spectrum_table_rows Q decimal_float fx_zip
                (fixture_xml [("outer.xml", spectrum_doc_ok)]) outer_blob spectrum_doc_ok
                ltac:(reflexivity)) as H.
  cbn [xml_find spectrum_doc_ok List.find tag String.eqb] in H.
  destruct H as [_ H].
  destruct H as (rows & Hd & Hm).
  - repeat constructor; do 2 eexists; split; reflexivity.
  - exists rows. split; [exact Hd|]. apply Forall2_length in Hm. rewrite <- Hm. reflexivity.
Defined.

(** C8 (counterexample): the inner XML has no ApexRT element, yet the
    extractor fails with a parse error, not a missing-field error: the
    IntensityRange doubles are read first and the first is not a number. *)
Lemma peak_model_parse_error_before_missing :
  peak_model_inner_tree fx_zip (fx_xml_with peak_model_bad_doc) fx_b64 outer_blob
  = Ok peak_model_bad_doc /\
  xml_find peak_model_bad_doc "ApexRT" = None /\
  decode_peak_model Q decimal_float fx_zip (fx_xml_with peak_model_bad_doc) fx_b64 outer_blob
  = Err (ValueError msg_float_conversion) /\
  error_kind (ValueError msg_float_conversion) = ParseError.
Proof. repeat split; reflexivity. Qed.

Lemma peak_model_fields_witness :
  peak_model_inner_tree fx_zip (fx_xml_with peak_model_inner_doc) fx_b64 outer_blob
  = Ok peak_model_inner_doc /\
  decode_peak_model Q decimal_float fx_zip (fx_xml_with peak_model_inner_doc) fx_b64 outer_blob
  = Ok (Build_peak_shape (Qmake 514251207635566 (10 ^ 14)) (Qmake 50705754833446273 (10 ^ 16))
          (Qmake 5245777979330482 (10 ^ 15)) (Qmake 84733989250721287 (10 ^ 18))
          (Qmake 0 1) (Qmake 1128086875 (10 ^ 4))).
Proof.
  split; [reflexivity|].
  apply (proj1 (peak_model_fields Q decimal_float fx_zip (fx_xml_with peak_model_inner_doc)
                  fx_b64 outer_blob peak_model_inner_doc ltac:(reflexivity))
           (Element "IntensityRange" [] None [leaf "double" "0"; leaf "double" "112808.6875"])
           "0" "112808.6875").
  all: try reflexivity.
  all: do 2 eexists; split; [reflexivity|split; reflexivity].
Defined.

(* ------------------------------------------------------------------ *)
(** ** Decoder calls on the store *)

Section StoreProofs.

Variable float_t : Type.
Variable py_float : string -> option float_t.
Variable zip_first_text : bytes -> result string.
Variable xml_fromstring : string -> result element.
Variable b64decode : string -> result bytes.
Variable gzip_decompress : bytes -> result bytes.
Variable utf8_decode : bytes -> result string.

Local Abbreviation heap := (gmap loc (pyobj float_t)) (only parsing).
Arguments wp {float_t A} m Q h.

Lemma wp_lift {A} (r : result A) Q (h : heap) : Q r h -> wp (lift float_t r) Q h.
Proof. intros HQ. split; simpl; [reflexivity|exact HQ]. Qed.

Lemma wp_bind {A B} (m : PyM float_t A) (k : A -> PyM float_t B) Q (h : heap) :
  wp m (fun r h' => match r with
                    | Ok a => wp (k a) Q h'
                    | Err e => Q (Err e) h'
                    end) h ->
  wp (sbind float_t m k) Q h.
Proof.
  unfold wp, sbind. destruct (m h) as [[a|e] h']; simpl.
  - intros [H1 [H2 H3]]. split; [by etrans|exact H3].
  - intros [H1 H2]. by split.
Qed.

Lemma wp_alloc (o : pyobj float_t) Q (h : heap) :
  (forall l, h !! l = None -> Q (Ok l) (<[l := o]> h)) -> wp (alloc float_t o) Q h.
Proof.
  intros HQ. unfold wp, alloc; simpl.
  assert (Hn : h !! fresh (dom h) = None) by (apply not_elem_of_dom, is_fresh).
  split; [by apply insert_subseteq|by apply HQ].
Qed.

Lemma wp_load l bs Q (h : heap) :
  h !! l = Some (PBytes float_t bs) -> Q (Ok bs) h -> wp (load_bytes float_t l) Q h.
Proof. intros Hl HQ. unfold wp, load_bytes; simpl. rewrite Hl. by split. Qed.

Lemma wp_call_is_pure {V} (py : loc -> PyM float_t loc) (view : heap -> loc -> option V)
    (pure : bytes -> result V) :
  (forall h l bs, h !! l = Some (PBytes float_t bs) ->
     wp (py l) (fun r h' => observe float_t view r h' = Some (pure bs)) h) ->
  call_is_pure float_t py view pure.
Proof.
  intros Hwp h l bs Hl.
  destruct (Hwp h l bs Hl) as [H1 H2].
  destruct (py l h) as [r1 h1] eqn:E1; simpl in H1, H2.
  assert (Hl1 : h1 !! l = Some (PBytes float_t bs)) by (eapply lookup_weaken; eauto).
  destruct (Hwp h1 l bs Hl1) as [H3 H4].
  destruct (py l h1) as [r2 h2]; simpl in H3, H4. auto.
Qed.

Ltac wp_finish :=
  repeat match goal with
         | H : <[_ := _]> _ !! _ = None |- _ => apply lookup_insert_None in H as [? ?]
         end;
  unfold observe, view_str, view_array, view_series, view_frame, view_pair, rbind;
  simpl;
  repeat (rewrite lookup_insert_eq || rewrite lookup_insert_ne by congruence);
  simpl; simplify_eq/=;
  repeat (progress (repeat match goal with H : ?x = _ |- context [?x] => rewrite H end); simpl);
  try reflexivity; try congruence.

Ltac wp_run :=
  repeat first
    [ apply wp_bind
    | eapply wp_load; [eassumption|]
    | apply wp_lift
    | apply wp_alloc; intros ?l ?Hfresh
    | progress (cbv beta iota zeta)
    | case_match ].

Lemma py_decode_mol_structure_wp h l bs :
  h !! l = Some (PBytes float_t bs) ->
  wp (py_decode_mol_structure float_t gzip_decompress utf8_decode l)
     (fun r h' => observe float_t (view_str float_t) r h'
                  = Some (decode_mol_structure gzip_decompress utf8_decode bs)) h.
Proof.
  intros Hl. unfold py_decode_mol_structure, decode_mol_structure.
  wp_run; wp_finish.
Qed.

Lemma py_decode_peak_ratings_wp h l bs :
  h !! l = Some (PBytes float_t bs) ->
  wp (py_decode_peak_ratings float_t l)
     (fun r h' => observe float_t (view_pair float_t) r h' = Some (decode_peak_ratings bs)) h.
Proof.
  intros Hl. unfold py_decode_peak_ratings, decode_peak_ratings.
  wp_run; wp_finish.
Qed.

Lemma py_decode_peak_areas_wp h l bs :
  h !! l = Some (PBytes float_t bs) ->
  wp (py_decode_peak_areas float_t l)
     (fun r h' => observe float_t (view_pair float_t) r h' = Some (decode_peak_areas bs)) h.
Proof.
  intros Hl. unfold py_decode_peak_areas, decode_peak_areas.
  wp_run; wp_finish.
Qed.

Lemma py_decode_gap_fill_status_wp h l bs :
  h !! l = Some (PBytes float_t bs) ->
  wp (py_decode_gap_fill_status float_t l)
     (fun r h' => observe float_t (view_array float_t) r h' = Some (decode_gap_fill_status bs)) h.
Proof.
  intros Hl. unfold py_decode_gap_fill_status, py_decode_stride5, decode_gap_fill_status.
  wp_run; wp_finish.
Qed.

Lemma py_decode_gap_status_wp h l bs :
  h !! l = Some (PBytes float_t bs) ->
  wp (py_decode_gap_status float_t l)
     (fun r h' => observe float_t (view_array float_t) r h' = Some (decode_gap_status bs)) h.
Proof.
  intros Hl. unfold py_decode_gap_status, py_decode_stride5, decode_gap_status.
  wp_run; wp_finish.
Qed.

Lemma py_decode_retention_times_wp h l bs :
  h !! l = Some (PBytes float_t bs) ->
  wp (py_decode_retention_times float_t l)
     (fun r h' => observe float_t (view_array float_t) r h' = Some (decode_retention_times bs)) h.
Proof.
  intros Hl. unfold py_decode_retention_times, decode_retention_times.
  wp_run; wp_finish.
Qed.

Lemma py_decode_peak_model_wp h l bs :
  h !! l = Some (PBytes float_t bs) ->
  wp (py_decode_peak_model float_t py_float zip_first_text xml_fromstring b64decode l)
     (fun r h' => observe float_t (view_series float_t) r h'
                  = Some (decode_peak_model float_t py_float zip_first_text xml_fromstring
                            b64decode bs)) h.
Proof.
  intros Hl.
  unfold py_decode_peak_model, py_unzip_xml, decode_peak_model, peak_model_inner_tree, unzip_xml.
  wp_run; wp_finish.
Qed.

Lemma py_decode_spectrum_wp h l bs :
  h !! l = Some (PBytes float_t bs) ->
  wp (py_decode_spectrum float_t py_float zip_first_text xml_fromstring l)
     (fun r h' => observe float_t (view_frame float_t) r h'
                  = Some (decode_spectrum float_t py_float zip_first_text xml_fromstring bs)) h.
Proof.
  intros Hl. unfold py_decode_spectrum, py_unzip_xml, decode_spectrum, unzip_xml.
  wp_run; wp_finish.
Qed.

(** C10: every decoder of parsers.py is deterministic and has no hidden
    state.  Run on a store holding the blob, a call only adds new objects:
    the blob and every other existing object are left as they were.  Its
    outcome (the exception raised, or the value of the returned object) is
    the pure decoder applied to the blob's bytes.  A second call on the same
    blob, made on the store the first call left behind, has the same
    outcome. *)
Theorem decoders_pure_on_store :
  call_is_pure float_t (py_decode_mol_structure float_t gzip_decompress utf8_decode)
    (view_str float_t) (decode_mol_structure gzip_decompress utf8_decode) /\
  call_is_pure float_t (py_decode_peak_ratings float_t) (view_pair float_t) decode_peak_ratings /\
  call_is_pure float_t (py_decode_peak_areas float_t) (view_pair float_t) decode_peak_areas /\
  call_is_pure float_t (py_decode_gap_fill_status float_t) (view_array float_t)
    decode_gap_fill_status /\
  call_is_pure float_t (py_decode_gap_status float_t) (view_array float_t) decode_gap_status /\
  call_is_pure float_t (py_decode_retention_times float_t) (view_array float_t)
    decode_retention_times /\
  call_is_pure float_t (py_decode_peak_model float_t py_float zip_first_text xml_fromstring b64decode)
    (view_series float_t)
    (decode_peak_model float_t py_float zip_first_text xml_fromstring b64decode) /\
  call_is_pure float_t (py_decode_spectrum float_t py_float zip_first_text xml_fromstring)
    (view_frame float_t) (decode_spectrum float_t py_float zip_first_text xml_fromstring).
Proof.
  split; [apply wp_call_is_pure, py_decode_mol_structure_wp|].
  split; [apply wp_call_is_pure, py_decode_peak_ratings_wp|].
  split; [apply wp_call_is_pure, py_decode_peak_areas_wp|].
  split; [apply wp_call_is_pure, py_decode_gap_fill_status_wp|].
  split; [apply wp_call_is_pure, py_decode_gap_status_wp|].
  split; [apply wp_call_is_pure, py_decode_retention_times_wp|].
  split; [apply wp_call_is_pure, py_decode_peak_model_wp|].
  apply wp_call_is_pure, py_decode_spectrum_wp.
Qed.

End StoreProofs.

(** A call of [decode_gap_status] on a store holding one blob: the result
    is a new array, and the blob is still in the store. *)
Example py_decode_gap_status_run :
  let h0 : gmap loc (pyobj Q) := {[ 1%positive := PBytes Q [b 3; b 0; b 0; b 0; b 7] ]} in
  let '(r, h1) := py_decode_gap_status Q 1%positive h0 in
  observe Q (view_array Q) r h1 = Some (Ok [3]) /\
  h1 !! 1%positive = Some (PBytes Q [b 3; b 0; b 0; b 0; b 7]).
Proof. vm_compute. split; reflexivity. Qed.

(* ================================================================== *)
(** * Further properties of the decoders and their callers *)

(** ** The stride-5 decoders *)

Lemma keep_enum_ext {A} (p : nat -> bool) i (l l' : list A) :
  length l = length l' ->
  (forall j, p (i + j)%nat = true -> nth_error l j = nth_error l' j) ->
  keep_enum p i l = keep_enum p i l'.
Proof.
  revert i l'; induction l as [|x r IH]; intros i [|x' r'] Hlen H; simpl in *; try done.
  assert (Hs : forall j, p (S i + j)%nat = true -> nth_error r j = nth_error r' j).
  { intros j Hj. apply (H (S j)). by replace (i + S j)%nat with (S i + j)%nat by lia. }
  destruct (p i) eqn:Hp.
  - assert (x = x') as ->.
    { specialize (H 0%nat). rewrite Nat.add_0_r in H. specialize (H Hp). simpl in H. congruence. }
    f_equal. apply IH; [lia|exact Hs].
  - apply IH; [lia|exact Hs].
Qed.

(** The stride-5 decoders never read the fifth byte of a group: two blobs
    of the same length that agree on every byte at a position [j] with
    [(j + 1) % 5 != 0] decode to the same result (the same values, or the
    same exception). *)
Theorem stride5_ignores_fifth_bytes (blob blob' : bytes) :
  length blob = length blob' ->
  (forall j, ((j + 1) mod 5 <> 0)%nat -> nth_error blob j = nth_error blob' j) ->
  decode_gap_fill_status blob = decode_gap_fill_status blob' /\
  decode_gap_status blob = decode_gap_status blob'.
Proof.
  intros Hl H.
  assert (E : drop_every_5th blob = drop_every_5th blob').
  { unfold drop_every_5th. apply keep_enum_ext; [done|].
    intros j Hj. apply H. simpl in Hj. by apply negb_true_iff, Nat.eqb_neq in Hj. }
  unfold decode_gap_fill_status, decode_gap_status. by rewrite E.
Qed.

Lemma stride5_ignores_fifth_bytes_witness :
  decode_gap_fill_status [b 44; b 1; b 0; b 0; b 7] = Ok [300] /\
  decode_gap_fill_status [b 44; b 1; b 0; b 0; b 7]
  = decode_gap_fill_status [b 44; b 1; b 0; b 0; b 200] /\
  decode_gap_status [b 44; b 1; b 0; b 0; b 7]
  = decode_gap_status [b 44; b 1; b 0; b 0; b 200].
Proof.
  split; [reflexivity|].
  apply stride5_ignores_fifth_bytes; [reflexivity|].
  intros j Hj. destruct j as [|[|[|[|[|j]]]]]; try reflexivity.
  exfalso. apply Hj. reflexivity.
Defined.

(** The gap-status decoder succeeds exactly when the gap-fill-status
    decoder succeeds with values that all lie in [[0, 256)], and then both
    return the same values; both raise the length [ValueError] on the same
    blobs. *)
Theorem gap_status_within_gap_fill_status (blob : bytes) (vs : list Z) :
  (decode_gap_status blob = Ok vs <->
     decode_gap_fill_status blob = Ok vs /\ Forall (fun v => 0 <= v < 256) vs) /\
  (decode_gap_status blob = Err (ValueError msg_not_multiple_of_4) <->
     decode_gap_fill_status blob = Err (ValueError msg_not_multiple_of_4)).
Proof.
  unfold decode_gap_status, decode_gap_fill_status.
  destruct (negb _).
  { split; split; intros H; try done. destruct H as [H _]. discriminate. }
  set (ws := signed_words _). rewrite !np_array_uint_Ok. change (2 ^ 8) with 256.
  split.
  - split.
    + intros [HF ->]. split; [split; [|done]|done].
      eapply Forall_impl; [exact HF|]. simpl. lia.
    + by intros [[_ ->] HF].
  - split; intros H; apply np_array_uint_Err in H as (v & _ & _ & Hv); discriminate.
Qed.


(** ** LazyBlob *)

(** Every access of [data], however many accesses came before, gives the
    decoder's outcome on the original blob: its value, or the exception it
    raises.  A failed decode leaves the blob in place and the next access
    decodes it again; a successful one is stored and never decoded a
    second time. *)
Theorem LazyBlob_every_access_decodes_original {A} (data : A) (decoder : A -> result A) (n : nat) :
  let s := Nat.iter n (fun s => snd (LazyBlob_data s)) (LazyBlob_init data decoder) in
  fst (LazyBlob_data s) = decoder data /\
  (s = LazyBlob_init data decoder \/
   exists v, decoder data = Ok v /\ s = mkLazyBlob v decoder true).
Proof.
  assert (Hinv : forall n,
    let s := Nat.iter n (fun s => snd (LazyBlob_data s)) (LazyBlob_init data decoder) in
    s = LazyBlob_init data decoder \/
    exists v, decoder data = Ok v /\ s = mkLazyBlob v decoder true).
  { induction n0 as [|n0 IH]; simpl; [by left|].
    destruct IH as [-> | [v [Hv ->]]].
    - unfold LazyBlob_data; simpl. destruct (decoder data) eqn:E; simpl; [right; eauto|by left].
    - right. exists v. done. }
  simpl. split; [|apply Hinv].
  destruct (Hinv n) as [-> | [v [Hv ->]]].
  - unfold LazyBlob_data; simpl. by destruct (decoder data).
  - done.
Qed.

(** ** The cached tables of PyDX *)

Lemma cache_attr_inj p q : cache_attr p = cache_attr q -> p = q.
Proof. destruct p, q; cbv; intros H; first [reflexivity | discriminate H]. Qed.

(** A table property reads the database once: after a successful read the
    object returns that table on every later access, whatever the
    database holds then; a failed read leaves the object unchanged. *)
Theorem cached_table_first_read_kept {engine_t table db_state}
    (read_sql_table : engine_t -> db_state -> string -> option string -> result table)
    (p : pydx_table) (self : PyDX engine_t table) (db : db_state) :
  match cached_table engine_t table db_state read_sql_table p self db with
  | (Ok t, self') => forall db',
      cached_table engine_t table db_state read_sql_table p self' db' = (Ok t, self')
  | (Err e, self') => self' = self
  end.
Proof.
  unfold cached_table. destruct (table_source p) as [[attr name] ic].
  destruct (attrs _ _ self !! attr) as [t|] eqn:Ha.
  - intros db'. by rewrite Ha.
  - destruct (read_sql_table _ db name ic) as [t|e]; [|done].
    intros db'. simpl. by rewrite lookup_insert_eq.
Qed.

(** The fifteen table properties cache in distinct attributes: reading one
    table never changes what another property returns. *)
Theorem cached_tables_independent {engine_t table db_state}
    (read_sql_table : engine_t -> db_state -> string -> option string -> result table)
    (p q : pydx_table) (self : PyDX engine_t table) (db1 db2 : db_state) :
  p <> q ->
  fst (cached_table engine_t table db_state read_sql_table p
         (snd (cached_table engine_t table db_state read_sql_table q self db1)) db2)
  = fst (cached_table engine_t table db_state read_sql_table p self db2).
Proof.
  intros Hpq.
  assert (Hne : cache_attr q <> cache_attr p) by (intros E; apply Hpq; symmetry; by apply cache_attr_inj).
  unfold cached_table at 2. unfold cache_attr in Hne.
  destruct (table_source q) as [[aq nq] iq]. simpl in Hne.
  destruct (attrs _ _ self !! aq) as [t|]; [done|].
  destruct (read_sql_table _ db1 nq iq) as [t|e]; [|done]. simpl.
  unfold cached_table. destruct (table_source p) as [[ap np] ip]. simpl in Hne |- *.
  rewrite lookup_insert_ne by done.
  destruct (attrs _ _ self !! ap); [done|]. by destruct (read_sql_table _ db2 np ip).
Qed.

Lemma cached_tables_independent_witness :
  Inputs <> Samples /\
  fst (cached_table unit nat unit (fun _ _ name _ => Ok (String.length name)) Inputs
         (snd (cached_table unit nat unit (fun _ _ name _ => Ok (String.length name)) Samples
                 (mkPyDX unit nat "study.cdResult" tt ∅) tt)) tt)
  = Ok 18%nat.
Proof.
  split; [discriminate|].
  rewrite (cached_tables_independent (fun _ _ name _ => Ok (String.length name)) Inputs Samples
             (mkPyDX unit nat "study.cdResult" tt ∅) tt tt); [reflexivity|discriminate].
Defined.

(** ** The feature queries *)

Lemma digits_acc_digit (d : N) acc a :
  (d < 10)%N -> digits_acc (String (digit_char d) acc) a = digits_acc acc (a * 10 + d)%N.
Proof.
  intros Hd. unfold digit_char. simpl.
  rewrite N_ascii_embedding by lia.
  replace (andb (48 <=? 48 + d)%N (48 + d <=? 57)%N) with true
    by (symmetry; apply andb_true_iff; split; apply N.leb_le; lia).
  by replace (48 + d - 48)%N with d by lia.
Qed.

Lemma digits_acc_dec_digits f n acc a :
  (n < 10 ^ N.of_nat f)%N ->
  exists k, digits_acc (dec_digits f n acc) a = digits_acc acc (a * 10 ^ k + n)%N.
Proof.
  revert n acc a; induction f as [|f IH]; intros n acc a Hn; simpl.
  - exists 0%N. replace n with 0%N by (simpl in Hn; lia). by rewrite N.pow_0_r, N.mul_1_r, N.add_0_r.
  - rewrite Nat2N.inj_succ, N.pow_succ_r' in Hn.
    pose proof (N.div_mod n 10 ltac:(lia)) as Hdm.
    pose proof (N.mod_lt n 10 ltac:(lia)) as Hm.
    destruct (N.eqb_spec (n / 10) 0) as [H0|H0].
    + exists 1%N. rewrite digits_acc_digit by done. f_equal. rewrite N.pow_1_r. lia.
    + destruct (IH (n / 10)%N (String (digit_char (n mod 10)) acc) a) as [k Hk].
      { apply N.Div0.div_lt_upper_bound. lia. }
      exists (N.succ k). rewrite Hk, digits_acc_digit by done. f_equal.
      rewrite N.pow_succ_r'. set (t := (10 ^ k)%N). nia.
Qed.

Lemma pos_lt_pow10_size (p : positive) : (N.pos p < 10 ^ N.of_nat (Pos.size_nat p))%N.
Proof.
  induction p as [p IH|p IH|]; cbn [Pos.size_nat]; rewrite ?Nat2N.inj_succ, ?N.pow_succ_r';
    [| |simpl; lia].
  - change (N.pos p~1) with (2 * N.pos p + 1)%N. lia.
  - change (N.pos p~0) with (2 * N.pos p)%N. lia.
Qed.

Lemma dec_digits_nonempty f n c r : exists c' r', dec_digits f n (String c r) = String c' r'.
Proof.
  revert n c r; induction f as [|f IH]; intros n c r; simpl; [eauto|].
  destruct (n / 10 =? 0)%N; [eauto|apply IH].
Qed.

Lemma parse_dec_pos p : parse_dec (dec_digits (Pos.size_nat p) (N.pos p) "") = Some (N.pos p).
Proof.
  destruct (digits_acc_dec_digits (Pos.size_nat p) (N.pos p) "" 0 (pos_lt_pow10_size p)) as [k Hk].
  assert (Hne : exists c r, dec_digits (Pos.size_nat p) (N.pos p) "" = String c r).
  { assert (Hs : exists f, Pos.size_nat p = S f) by (destruct p; simpl; eauto).
    destruct Hs as [f ->]. simpl. destruct (N.pos p / 10 =? 0)%N; eauto using dec_digits_nonempty. }
  destruct Hne as (c & r & Hcr). unfold parse_dec. rewrite Hcr, <- Hcr, Hk. simpl. done.
Qed.

(** [int(str(z)) == z] in the SQL reading of the text. *)
Lemma parse_sql_int_py_str_int z : parse_sql_int (py_str_int z) = Some z.
Proof.
  destruct z as [|p|p]; [reflexivity| |].
  - unfold parse_sql_int, py_str_int. by rewrite parse_dec_pos.
  - unfold parse_sql_int, py_str_int.
    change ("-" +:+ ?x) with (String "-" x).
    replace (parse_dec (String "-" (dec_digits (Pos.size_nat p) (N.pos p) ""))) with (@None N)
      by reflexivity.
    cbn -[parse_dec dec_digits]. by rewrite parse_dec_pos.
Qed.

Lemma dec_digits_chars f n acc :
  string_all digit_or_minus acc = true -> string_all digit_or_minus (dec_digits f n acc) = true.
Proof.
  revert n acc; induction f as [|f IH]; intros n acc Hacc; simpl; [done|].
  assert (Hc : string_all digit_or_minus (String (digit_char (n mod 10)) acc) = true).
  { simpl. rewrite Hacc, andb_true_r. unfold digit_or_minus, digit_char.
    pose proof (N.mod_lt n 10 ltac:(lia)).
    rewrite N_ascii_embedding by lia. apply orb_true_iff. right.
    apply andb_true_iff; split; apply N.leb_le; set (d := (n mod 10)%N) in *; lia. }
  destruct (n / 10 =? 0)%N; [done|by apply IH].
Qed.

Lemma str_app_nil_l (s : string) : "" +:+ s = s.
Proof. reflexivity. Qed.

Lemma str_app_cons c (a r : string) : String c a +:+ r = String c (a +:+ r).
Proof. reflexivity. Qed.

Lemma str_app_assoc (a b c : string) : a +:+ (b +:+ c) = (a +:+ b) +:+ c.
Proof. induction a as [|x a IH]; [done|]. by rewrite !str_app_cons, IH. Qed.

Lemma string_app_nil_r' (s : string) : s +:+ "" = s.
Proof. induction s as [|c s IH]; [done|]. by rewrite str_app_cons, IH. Qed.

Lemma py_str_int_no_comma z : string_all (fun c => negb (Ascii.eqb c ",")) (py_str_int z) = true.
Proof.
  assert (H : forall s, string_all digit_or_minus s = true ->
                        string_all (fun c => negb (Ascii.eqb c ",")) s = true).
  { induction s as [|c s IH]; simpl; [done|]. intros [Hc Hs]%andb_true_iff.
    rewrite (IH Hs), andb_true_r. destruct (Ascii.eqb_spec c ","); [subst; discriminate|done]. }
  apply H. destruct z; simpl; [done|by apply dec_digits_chars|].
  rewrite str_app_nil_l. by apply dec_digits_chars.
Qed.

Lemma split_comma_cons s : exists p ps, split_comma s = p :: ps.
Proof.
  induction s as [|c s [p [ps IH]]]; simpl; [eauto|].
  destruct (Ascii.eqb c ","); [eauto|]. rewrite IH. eauto.
Qed.

Lemma split_comma_app a r :
  string_all (fun c => negb (Ascii.eqb c ",")) a = true ->
  split_comma (a +:+ r) =
  match split_comma r with p :: ps => (a +:+ p) :: ps | [] => [a] end.
Proof.
  induction a as [|c a IH]; intros Ha.
  - rewrite str_app_nil_l. destruct (split_comma_cons r) as (p & ps & ->). done.
  - simpl in Ha. apply andb_true_iff in Ha as [Hc Ha]. apply negb_true_iff in Hc.
    rewrite str_app_cons. simpl. rewrite Hc, (IH Ha).
    destruct (split_comma_cons r) as (p & ps & ->). done.
Qed.

Lemma split_comma_concat x xs :
  Forall (fun s => string_all (fun c => negb (Ascii.eqb c ",")) s = true) (x :: xs) ->
  split_comma (String.concat ", " (x :: xs)) = x :: map (fun s => " " +:+ s) xs.
Proof.
  revert x; induction xs as [|y ys IH]; intros x Hall; inversion Hall as [|? ? Hx Hr]; subst.
  - simpl String.concat. rewrite <- (string_app_nil_r' x) at 1.
    rewrite split_comma_app by done. simpl. by rewrite string_app_nil_r'.
  - change (String.concat ", " (x :: y :: ys)) with (x +:+ (", " +:+ String.concat ", " (y :: ys))).
    rewrite split_comma_app by done. rewrite str_app_cons.
    change (split_comma (String "," ?r)) with (EmptyString :: split_comma r).
    rewrite str_app_cons, str_app_nil_l.
    change (split_comma (String " " ?r))
      with (match split_comma r with p :: ps => String " " p :: ps
                                | [] => [String " " EmptyString] end).
    rewrite (IH y Hr). rewrite string_app_nil_r'. reflexivity.
Qed.

Lemma parse_sql_tail_spaced zs :
  parse_sql_tail (map (fun s => " " +:+ s) (map py_str_int zs)) = Some zs.
Proof.
  induction zs as [|z zs IH]; [done|]. simpl.
  rewrite ?str_app_cons, ?str_app_nil_l. simpl. by rewrite parse_sql_int_py_str_int, IH.
Qed.

Lemma strip_close_app s : strip_close (s +:+ ")") = Some s.
Proof.
  induction s as [|c s IH]; [done|]. rewrite str_app_cons.
  destruct s as [|c' s']; [done|]. rewrite str_app_cons in *.
  change (strip_close (String c (String c' ?r))) with (option_map (String c) (strip_close (String c' r))).
  by rewrite IH.
Qed.

Lemma strip_prefix_app p s : strip_prefix p (p +:+ s) = Some s.
Proof.
  induction p as [|c p IH]; [done|]. rewrite str_app_cons. simpl.
  by rewrite Ascii.eqb_refl.
Qed.

Lemma where_clause_round_trip col (feature_ids : list Z) :
  feature_ids <> [] ->
  exists rest, feature_where_clause col feature_ids = Ok (col +:+ rest) /\
               parse_where_rest rest = Some feature_ids.
Proof.
  intros Hne. destruct feature_ids as [|z [|z' zs]]; [done| |].
  - exists (" = " +:+ py_str_int z). split; [reflexivity|].
    unfold parse_where_rest. rewrite strip_prefix_app. simpl.
    by rewrite parse_sql_int_py_str_int.
  - exists (" IN " +:+ py_tuple_repr (z :: z' :: zs)). split; [reflexivity|].
    unfold parse_where_rest, py_tuple_repr.
    set (body := String.concat ", " (map py_str_int (z :: z' :: zs))).
    rewrite ?str_app_cons, ?str_app_nil_l. simpl strip_prefix.
    cbv iota beta. rewrite strip_close_app.
    unfold parse_sql_items. subst body.
    change (map py_str_int (z :: z' :: zs)) with (py_str_int z :: map py_str_int (z' :: zs)).
    rewrite split_comma_concat.
    + by rewrite parse_sql_int_py_str_int, (parse_sql_tail_spaced (z' :: zs)).
    + apply Forall_forall. intros s Hs. apply list_elem_of_In in Hs.
      change (In s (map py_str_int (z :: z' :: zs))) in Hs. apply in_map_iff in Hs as (x & <- & _).
      apply py_str_int_no_comma.
Qed.

(** For a non-empty list of ids, the [where_clause] of the feature queries
    is the column followed by a text that reads back, as SQL, as exactly
    the list of ids in order; for one id it is [col = n], not a one-element
    tuple. *)
Theorem feature_where_clause_reads_back col (feature_ids : list Z) :
  feature_ids <> [] ->
  exists rest, feature_where_clause col feature_ids = Ok (col +:+ rest) /\
               parse_where_rest rest = Some feature_ids.
Proof. apply where_clause_round_trip. Qed.

Lemma feature_where_clause_reads_back_witness :
  [7; -12; 300] <> [] /\
  exists rest, feature_where_clause "ID" [7; -12; 300] = Ok ("ID" +:+ rest) /\
               parse_where_rest rest = Some [7; -12; 300].
Proof. split; [discriminate|]. apply feature_where_clause_reads_back. discriminate. Defined.

(** ** The feature searches of [PyDX] *)

(** For a non-empty list of ids, [get_chemspider_hits_for_feature] and
    [get_mzcloud_search_results_for_feature] run one query each, on the
    object's engine: their join text followed by a WHERE clause on
    [J.ConsolidatedUnknownCompoundItemsID] that selects exactly the given
    ids, and return what [pd.read_sql_query] returns or raises. *)
Theorem feature_searches_query_given_ids {engine_t table db_state}
    (read_sql_query : engine_t -> db_state -> string -> result table)
    (self : PyDX engine_t table) (db : db_state) (feature_ids : list Z) :
  feature_ids <> [] ->
  exists rest, parse_where_rest rest = Some feature_ids /\
    get_chemspider_hits_for_feature engine_t table db_state read_sql_query self db feature_ids
    = of_result (read_sql_query (engine _ _ self) db
                   (chemspider_join +:+ "J.ConsolidatedUnknownCompoundItemsID" +:+ rest)) /\
    get_mzcloud_search_results_for_feature engine_t table db_state read_sql_query self db feature_ids
    = of_result (read_sql_query (engine _ _ self) db
                   (mzcloud_join +:+ "J.ConsolidatedUnknownCompoundItemsID" +:+ rest)).
Proof.
  intros Hne.
  destruct (where_clause_round_trip "J.ConsolidatedUnknownCompoundItemsID" feature_ids Hne)
    as (rest & Hw & Hp).
  exists rest. split; [done|].
  unfold get_chemspider_hits_for_feature, get_mzcloud_search_results_for_feature.
  rewrite Hw. split; reflexivity.
Qed.

Lemma feature_searches_query_given_ids_witness :
  [7; 8] <> [] /\
  exists rest, parse_where_rest rest = Some [7; 8] /\
    get_chemspider_hits_for_feature unit nat unit (fun _ _ sql => Ok (String.length sql))
      (mkPyDX unit nat "study.cdResult" tt ∅) tt [7; 8]
    = of_result (Ok (String.length (chemspider_join +:+ "J.ConsolidatedUnknownCompoundItemsID" +:+ rest))) /\
    get_mzcloud_search_results_for_feature unit nat unit (fun _ _ sql => Ok (String.length sql))
      (mkPyDX unit nat "study.cdResult" tt ∅) tt [7; 8]
    = of_result (Ok (String.length (mzcloud_join +:+ "J.ConsolidatedUnknownCompoundItemsID" +:+ rest))).
Proof.
  split; [discriminate|].
  exact (feature_searches_query_given_ids (fun _ _ sql => Ok (String.length sql))
           (mkPyDX unit nat "study.cdResult" tt ∅) tt [7; 8] ltac:(discriminate)).
Defined.

(** With no ids, both feature searches raise the [ValueError] of the
    source before any query is run. *)
Theorem feature_searches_reject_empty {engine_t table db_state}
    (read_sql_query : engine_t -> db_state -> string -> result table)
    (self : PyDX engine_t table) (db : db_state) :
  get_chemspider_hits_for_feature engine_t table db_state read_sql_query self db []
    = XErr (PyExc (ValueError msg_no_feature_ids)) /\
  get_mzcloud_search_results_for_feature engine_t table db_state read_sql_query self db []
    = XErr (PyExc (ValueError msg_no_feature_ids)).
Proof. split; reflexivity. Qed.

(** ** [probablistic_subset_likelihood] *)

Lemma bidx_lt d i : (i < d)%nat -> bidx d i = i.
Proof. unfold bidx. destruct (Nat.eqb_spec d 1); lia. Qed.

Lemma bdim_same d : bdim d d = Some d.
Proof. unfold bdim. by rewrite Nat.eqb_refl. Qed.

Lemma zip_with_map_seq {A B C} (F : A -> B -> C) (l1 : list A) (l2 : list B) d1 d2 :
  length l1 = length l2 ->
  zip_with F l1 l2 = map (fun i => F (nth i l1 d1) (nth i l2 d2)) (seq 0 (length l1)).
Proof.
  revert l2; induction l1 as [|x l1 IH]; intros [|y l2] Hl; simpl in *; try done.
  rewrite (IH l2) by lia. f_equal. rewrite <- seq_shift, map_map. reflexivity.
Qed.

Lemma map_seq_nth_id {A} (l : list A) d : map (fun i => nth i l d) (seq 0 (length l)) = l.
Proof.
  induction l as [|x l IH]; [done|]. simpl. f_equal.
  rewrite <- seq_shift, map_map. exact IH.
Qed.

Lemma map_as_map_seq {A B} (g : A -> B) (l : list A) d :
  map g l = map (fun i => g (nth i l d)) (seq 0 (length l)).
Proof. rewrite <- (map_seq_nth_id l d) at 1. by rewrite map_map. Qed.

Lemma nth_map_map {A B} (f : A -> B) (rows : list (list A)) i :
  nth i (map (map f) rows) [] = map f (nth i rows []).
Proof. exact (map_nth (map f) rows [] i). Qed.

Lemma nth_map_in {A B} (f : A -> B) (l : list A) j d d' :
  (j < length l)%nat -> nth j (map f l) d = f (nth j l d').
Proof. intros Hj. rewrite (nth_indep _ d (f d')) by (rewrite length_map; lia). apply map_nth. Qed.

Section PSL.
Context {float_t : Type} (f0 f1 : float_t) (fsub fmul fdiv : float_t -> float_t -> float_t)
        (np_sum : list float_t -> float_t).

(** One row of [p_1 * (1 - p_2)] for a row [r1] of [p_1] and [r2] of [p_2]. *)
Lemma psl_row c (r1 r2 : list float_t) :
  length r1 = c -> length r2 = c ->
  map (fun j => fmul (nth (bidx c j) r1 f0) (nth (bidx c j) (map (fsub f1) r2) f0)) (seq 0 c)
  = zip_with (fun a b => fmul a (fsub f1 b)) r1 r2.
Proof.
  intros H1 H2. rewrite (zip_with_map_seq _ r1 r2 f0 f0) by lia. rewrite H1.
  apply map_ext_in. intros j Hj%in_seq. rewrite bidx_lt by lia.
  by rewrite (nth_map_in _ _ _ _ f0) by lia.
Qed.

End PSL.

(** With 1-D arrays for both arguments, as in its docstring,
    [probablistic_subset_likelihood] always raises a [ValueError]: numpy's
    axis error when the lengths broadcast, and the broadcast error
    otherwise. *)
Theorem probablistic_subset_likelihood_vectors_raise {float_t} (f0 f1 : float_t)
    (fsub fmul fdiv : float_t -> float_t -> float_t) (np_sum : list float_t -> float_t)
    (p_1 p_2 : list float_t) :
  probablistic_subset_likelihood float_t f0 f1 fsub fmul fdiv np_sum (Arr1 p_1) (Arr1 p_2) =
  XErr (PyExc (ValueError (match bdim (length p_1) (length p_2) with
                           | Some _ => msg_axis1
                           | None => msg_broadcast
                           end))).
Proof.
  unfold probablistic_subset_likelihood, np_binop, np_rsub. simpl.
  rewrite length_map. by destruct (bdim _ _).
Qed.

(** For [p_1] and [p_2] of the same 2-D shape, the result has one value
    per row [i]: the sum over the row of [p_1[i,j] * (1 - p_2[i,j])],
    divided by the sum of all entries of [p_1]. *)
Theorem probablistic_subset_likelihood_rows {float_t} (f0 f1 : float_t)
    (fsub fmul fdiv : float_t -> float_t -> float_t) (np_sum : list float_t -> float_t)
    (c : nat) (rows1 rows2 : list (list float_t)) :
  Forall (fun r => length r = c) rows1 ->
  Forall (fun r => length r = c) rows2 ->
  length rows1 = length rows2 ->
  probablistic_subset_likelihood float_t f0 f1 fsub fmul fdiv np_sum (Arr2 c rows1) (Arr2 c rows2) =
  XOk (zip_with (fun r1 r2 => fdiv (np_sum (zip_with (fun a b => fmul a (fsub f1 b)) r1 r2))
                                   (np_sum (concat rows1))) rows1 rows2).
Proof.
  intros H1 H2 Hl. unfold probablistic_subset_likelihood, np_binop, np_rsub. simpl.
  rewrite length_map, <- Hl, !bdim_same. simpl. f_equal.
  rewrite (zip_with_map_seq _ rows1 rows2 [] []) by done.
  rewrite !map_map. apply map_ext_in. intros i Hi%in_seq. rewrite bidx_lt by lia.
  rewrite nth_map_map. rewrite psl_row; [reflexivity| |].
  - apply (proj1 (List.Forall_forall _ _) H1), nth_In. lia.
  - apply (proj1 (List.Forall_forall _ _) H2), nth_In. lia.
Qed.

Lemma probablistic_subset_likelihood_rows_witness :
  Forall (fun r => length r = 2%nat) [[1; 0]; [1; 1]] /\
  Forall (fun r => length r = 2%nat) [[1; 1]; [0; 1]] /\
  length [[1; 0]; [1; 1]] = length [[1; 1]; [0; 1]] /\
  probablistic_subset_likelihood Z 0 1 Z.sub Z.mul Z.div (fold_right Z.add 0)
    (Arr2 2 [[1; 0]; [1; 1]]) (Arr2 2 [[1; 1]; [0; 1]]) =
  XOk (zip_with (fun r1 r2 => Z.div (fold_right Z.add 0 (zip_with (fun a b => a * (1 - b)) r1 r2))
                                    (fold_right Z.add 0 (concat [[1; 0]; [1; 1]])))
                [[1; 0]; [1; 1]] [[1; 1]; [0; 1]]).
Proof.
  split; [repeat constructor|]. split; [repeat constructor|]. split; [reflexivity|].
  apply probablistic_subset_likelihood_rows; [repeat constructor | repeat constructor | reflexivity].
Defined.

(** With a 2-D [p_1] of [c] columns and a 1-D [p_2] of length [c],
    [p_2] is broadcast to every row: row [i] gives the sum of
    [p_1[i,j] * (1 - p_2[j])], divided by the sum of all entries of
    [p_1]. *)
Theorem probablistic_subset_likelihood_broadcast_row {float_t} (f0 f1 : float_t)
    (fsub fmul fdiv : float_t -> float_t -> float_t) (np_sum : list float_t -> float_t)
    (c : nat) (rows1 : list (list float_t)) (p_2 : list float_t) :
  Forall (fun r => length r = c) rows1 ->
  length p_2 = c ->
  probablistic_subset_likelihood float_t f0 f1 fsub fmul fdiv np_sum (Arr2 c rows1) (Arr1 p_2) =
  XOk (map (fun r1 => fdiv (np_sum (zip_with (fun a b => fmul a (fsub f1 b)) r1 p_2))
                           (np_sum (concat rows1))) rows1).
Proof.
  intros H1 H2. unfold probablistic_subset_likelihood, np_binop, np_rsub. simpl.
  rewrite length_map, H2, bdim_same.
  replace (bdim (length rows1) 1) with (Some (length rows1))
    by (unfold bdim; destruct (Nat.eqb_spec (length rows1) 1); [by subst|];
        by destruct (Nat.eqb_spec (length rows1) 1)).
  simpl. f_equal.
  rewrite (map_as_map_seq _ rows1 []).
  rewrite !map_map. apply map_ext_in. intros i Hi%in_seq. rewrite bidx_lt by lia.
  unfold bidx at 2. simpl. rewrite psl_row; [reflexivity| |done].
  apply (proj1 (List.Forall_forall _ _) H1), nth_In. lia.
Qed.

Lemma probablistic_subset_likelihood_broadcast_row_witness :
  Forall (fun r => length r = 3%nat) [[1; 0; 1]; [0; 1; 1]] /\
  length [1; 0; 0] = 3%nat /\
  probablistic_subset_likelihood Z 0 1 Z.sub Z.mul Z.div (fold_right Z.add 0)
    (Arr2 3 [[1; 0; 1]; [0; 1; 1]]) (Arr1 [1; 0; 0]) =
  XOk (map (fun r1 => Z.div (fold_right Z.add 0 (zip_with (fun a b => a * (1 - b)) r1 [1; 0; 0]))
                            (fold_right Z.add 0 (concat [[1; 0; 1]; [0; 1; 1]])))
           [[1; 0; 1]; [0; 1; 1]]).
Proof.
  split; [repeat constructor|]. split; [reflexivity|].
  apply probablistic_subset_likelihood_broadcast_row; [repeat constructor | reflexivity].
Defined.

(** ** [compute_peak_likelihood] *)

Lemma np_or_shape (a c : list bool) :
  match np_or a c with
  | XOk ft => bdim (length a) (length c) = Some (length ft)
  | XErr e => bdim (length a) (length c) = None /\ e = PyExc (ValueError msg_broadcast)
  end.
Proof.
  unfold np_or, bdim.
  destruct (Nat.eqb_spec (length a) (length c)) as [E|E].
  - by rewrite length_zip_with, E, Nat.min_id.
  - destruct (Nat.eqb_spec (length a) 1); [by rewrite length_map|].
    destruct (Nat.eqb_spec (length c) 1); [by rewrite length_map|done].
Qed.

Lemma length_mask_fill {A} (a : list A) m vs : length (mask_fill a m vs) = length a.
Proof.
  revert m vs; induction a as [|x a IH]; intros [|[] m] vs; simpl; try done.
  - destruct vs; simpl; by rewrite IH.
  - by rewrite IH.
Qed.

Lemma mask_set_negb_Forall2 {A B} (fg : B -> bool) (v : A) (xs : list A) (area : list B) :
  length xs = length area ->
  Forall2 (fun x p => fg x = false -> p = v) area
    (zip_with (fun y (m : bool) => if m then v else y) xs (map negb (map fg area))).
Proof.
  revert xs; induction area as [|x area IH]; intros [|y xs] Hl; simpl in *; try done; try lia.
  constructor; [|apply IH; lia]. intros ->. done.
Qed.

Lemma Forall2_repeat_const {A B} (P : B -> bool) (v : A) (area : list B) :
  Forall2 (fun x p => P x = false -> p = v) area (repeat v (length area)).
Proof. induction area; simpl; by constructor. Qed.

Lemma np_mask_in {A} (l : list A) (m : list bool) x d :
  length l = length m ->
  In x (map fst (List.filter snd (zip l m))) <->
  exists i, (i < length l)%nat /\ nth i m false = true /\ nth i l d = x.
Proof.
  revert m; induction l as [|y l IH]; intros [|b m] Hl; simpl in *; try lia.
  - split; [done|]. intros (i & Hi & _). lia.
  - destruct b; simpl.
    + rewrite (IH m) by lia. split.
      * intros [<-|(i & Hi & Hm & Hx)]; [exists 0%nat; split; [lia|done]|].
        exists (S i). split; [lia|done].
      * intros ([|i] & Hi & Hm & Hx); [by left|]. right. exists i. split; [lia|done].
    + rewrite (IH m) by lia. split.
      * intros (i & Hi & Hm & Hx). exists (S i). split; [lia|done].
      * intros ([|i] & Hi & Hm & Hx); [done|]. exists i. split; [lia|done].
Qed.

Lemma count_true_all (l : list bool) : count_true l = length l -> forall x, In x l -> x = true.
Proof.
  unfold count_true. induction l as [|b l IH]; simpl; [done|].
  destruct b; simpl.
  - intros Hc x [<-|Hx]; [done|]. apply IH; [lia|done].
  - intros Hc. pose proof (List.filter_length_le id l). unfold id in *. lia.
Qed.

Lemma count_true_nonzero (l : list bool) : count_true l <> 0%nat -> exists x, In x l.
Proof. destruct l as [|b l]; [done|]. intros _. exists b. by left. Qed.

(** [compute_peak_likelihood] fails on inputs whose shapes do not fit:
    gap arrays whose lengths do not broadcast give numpy's broadcast
    [ValueError], and a broadcast length other than the number of peak
    areas gives the [IndexError] of boolean indexing. *)
Theorem compute_peak_likelihood_shape_errors {float_t} (f0 f1 : float_t) (fgt0 : float_t -> bool)
    (log10 : float_t -> float_t) (lr_fit_predict : list float_t -> list bool -> result (list float_t))
    (peak_area : list float_t) (gap_status gap_fill_method : list Z) :
  match bdim (length gap_fill_method) (length gap_status) with
  | None =>
      compute_peak_likelihood float_t f0 f1 fgt0 log10 lr_fit_predict peak_area gap_status
        gap_fill_method = XErr (PyExc (ValueError msg_broadcast))
  | Some n =>
      n <> length peak_area ->
      compute_peak_likelihood float_t f0 f1 fgt0 log10 lr_fit_predict peak_area gap_status
        gap_fill_method = XErr (IndexError msg_bool_index)
  end.
Proof.
  unfold compute_peak_likelihood.
  pose proof (np_or_shape (np_isin gap_fill_method [0; 1; 64; 128]) (np_eq_scalar gap_status 1)) as H.
  unfold np_isin, np_eq_scalar in *. rewrite !length_map in H.
  destruct (np_or _ _) as [ft|e].
  - rewrite H. intros Hn. cbn [xbind]. unfold np_mask at 1. rewrite length_map.
    destruct (Nat.eqb_spec (length ft) (length peak_area)); [done|reflexivity].
  - destruct H as [-> ->]. reflexivity.
Qed.

(** When [compute_peak_likelihood] returns, it returns one value per
    peak area, and either every sample whose area is not positive gets 0,
    or the result is all ones: this happens when every sample with a
    positive area is a target (gap status 1 or a positive gap fill code),
    and some sample has a positive area; samples with no area then get 1
    as well. *)
Theorem compute_peak_likelihood_zero_area {float_t} (f0 f1 : float_t) (fgt0 : float_t -> bool)
    (log10 : float_t -> float_t) (lr_fit_predict : list float_t -> list bool -> result (list float_t))
    (peak_area : list float_t) (gap_status gap_fill_method : list Z) (probs : list float_t) :
  compute_peak_likelihood float_t f0 f1 fgt0 log10 lr_fit_predict peak_area gap_status
    gap_fill_method = XOk probs ->
  Forall2 (fun a p => fgt0 a = false -> p = f0) peak_area probs \/
  (probs = repeat f1 (length peak_area) /\
   exists feature_targets,
     np_or (np_isin gap_fill_method [0; 1; 64; 128]) (np_eq_scalar gap_status 1) = XOk feature_targets /\
     length feature_targets = length peak_area /\
     (exists i, (i < length peak_area)%nat /\ fgt0 (nth i peak_area f0) = true) /\
     forall i, (i < length peak_area)%nat -> fgt0 (nth i peak_area f0) = true ->
               nth i feature_targets false = true).
Proof.
  unfold compute_peak_likelihood.
  destruct (np_or _ _) as [ft|e] eqn:Hor; [|discriminate]. cbn [xbind].
  unfold np_mask at 1. rewrite length_map.
  destruct (Nat.eqb_spec (length ft) (length peak_area)) as [Hft|]; [|discriminate].
  cbn [xbind]. unfold np_mask. rewrite length_map, Nat.eqb_refl. cbn [xbind].
  set (nt := map fst (List.filter snd (zip ft (map fgt0 peak_area)))).
  destruct (Nat.eqb_spec (count_true nt) 0) as [H0|H0].
  { intros [= <-]. left. rewrite Hft. apply Forall2_repeat_const. }
  destruct (Nat.eqb_spec (count_true nt) (length nt)) as [Hall|Hall].
  { intros [= <-]. right. rewrite Hft. split; [done|]. exists ft. split; [done|]. split; [done|].
    assert (Hin : forall x, In x nt <-> exists i, (i < length ft)%nat /\
                    nth i (map fgt0 peak_area) false = true /\ nth i ft false = x)
      by (intros x; apply np_mask_in; by rewrite length_map).
    split.
    - destruct (count_true_nonzero nt H0) as [x Hx]. apply Hin in Hx as (i & Hi & Hm & _).
      exists i. split; [lia|]. by rewrite (nth_map_in _ _ _ _ f0) in Hm by lia.
    - intros i Hi Hpos. apply (count_true_all nt Hall). apply Hin. exists i.
      split; [lia|]. split; [|done]. by rewrite (nth_map_in _ _ _ _ f0) by lia. }
  destruct (lr_fit_predict _ _) as [out|e]; cbn [of_result xbind]; [|discriminate].
  unfold np_mask_assign. rewrite repeat_length, length_map, Hft, Nat.eqb_refl. simpl negb.
  cbv iota.
  assert (Hset : forall xs, length xs = length peak_area ->
            xbind (np_mask_set xs (map negb (map fgt0 peak_area)) f0) (fun p => XOk p) = XOk probs ->
            Forall2 (fun a p => fgt0 a = false -> p = f0) peak_area probs).
  { intros xs Hxs. unfold np_mask_set. rewrite !length_map, Hxs, Nat.eqb_refl.
    intros [= <-]. by apply mask_set_negb_Forall2. }
  destruct (Nat.eqb (length out) (count_true _)).
  - intros H. cbn [xbind] in H. left. eapply Hset; [|exact H].
    by rewrite length_mask_fill, repeat_length.
  - destruct out as [|o [|o' os]]; [discriminate| |discriminate].
    intros H. cbn [xbind] in H. left. eapply Hset; [|exact H].
    by rewrite length_mask_fill, repeat_length.
Qed.

Lemma compute_peak_likelihood_zero_area_witness :
  compute_peak_likelihood Z 0 1 (Z.ltb 0) Z.log2 (fun xs _ => Ok (map (fun _ => 5) xs))
    [0; 10] [0; 1] [2; 2] = XOk [1; 1] /\
  (Forall2 (fun a p => Z.ltb 0 a = false -> p = 0) [0; 10] [1; 1] \/
   ([1; 1] = repeat 1 (length [0; 10]) /\
    exists feature_targets,
      np_or (np_isin [2; 2] [0; 1; 64; 128]) (np_eq_scalar [0; 1] 1) = XOk feature_targets /\
      length feature_targets = length [0; 10] /\
      (exists i, (i < length [0; 10])%nat /\ Z.ltb 0 (nth i [0; 10] 0) = true) /\
      forall i, (i < length [0; 10])%nat -> Z.ltb 0 (nth i [0; 10] 0) = true ->
                nth i feature_targets false = true)).
Proof.
  split; [reflexivity|].
  apply (compute_peak_likelihood_zero_area 0 1 (Z.ltb 0) Z.log2
           (fun xs _ => Ok (map (fun _ => 5) xs)) [0; 10] [0; 1] [2; 2] [1; 1]).
  reflexivity.
Defined.

Lemma length_mask_filter {A} (l : list A) (m : list bool) :
  length l = length m -> length (List.filter snd (zip l m)) = count_true m.
Proof.
  unfold count_true. revert m; induction l as [|x l IH]; intros [|b m] Hl; simpl in *; try lia.
  destruct b; simpl; rewrite IH; [done|lia|done|lia].
Qed.

Lemma count_true_in_true (l : list bool) : count_true l <> 0%nat -> In true l.
Proof.
  unfold count_true. induction l as [|x l IH]; simpl; [done|].
  destruct x; simpl; [by left|]. intros H. right. by apply IH.
Qed.

Lemma count_true_in_false (l : list bool) : count_true l <> length l -> In false l.
Proof.
  unfold count_true. induction l as [|x l IH]; simpl; [done|].
  destruct x; simpl; [|by left]. intros H. right. apply IH. lia.
Qed.

(** On gap arrays and peak areas of one length, [compute_peak_likelihood]
    returns one value per sample, provided the logistic regression
    returns one probability per sample whenever it is fitted on finite
    values and on labels holding both classes (scikit-learn raises
    otherwise), and the [log10] of every positive peak area is finite. *)
Theorem compute_peak_likelihood_succeeds {float_t} (f0 f1 : float_t) (fgt0 : float_t -> bool)
    (log10 : float_t -> float_t) (lr_fit_predict : list float_t -> list bool -> result (list float_t))
    (finite : float_t -> Prop)
    (peak_area : list float_t) (gap_status gap_fill_method : list Z) :
  length gap_fill_method = length peak_area ->
  length gap_status = length peak_area ->
  (forall xs ys, length xs = length ys -> Forall finite xs -> In true ys -> In false ys ->
     exists out, lr_fit_predict xs ys = Ok out /\ length out = length xs) ->
  (forall a, In a peak_area -> fgt0 a = true -> finite (log10 a)) ->
  exists probs,
    compute_peak_likelihood float_t f0 f1 fgt0 log10 lr_fit_predict peak_area gap_status
      gap_fill_method = XOk probs /\ length probs = length peak_area.
Proof.
  intros Hgf Hgs Hlr Hfin. unfold compute_peak_likelihood, np_or, np_isin, np_eq_scalar.
  rewrite !length_map, Hgf, Hgs, Nat.eqb_refl. cbn [xbind].
  set (ft := zip_with orb _ _).
  assert (Hft : length ft = length peak_area)
    by (unfold ft; rewrite length_zip_with, !length_map; lia).
  unfold np_mask. rewrite !length_map, Hft, Nat.eqb_refl. cbn [xbind].
  set (nt := map fst (List.filter snd (zip ft (map fgt0 peak_area)))).
  destruct (Nat.eqb_spec (count_true nt) 0) as [H0|H0];
    [eexists; split; [reflexivity|apply repeat_length]|].
  destruct (Nat.eqb_spec (count_true nt) (length nt)) as [Hall|Hall];
    [eexists; split; [reflexivity|apply repeat_length]|].
  destruct (Hlr (map log10 (map fst (List.filter snd (zip peak_area (map fgt0 peak_area))))) nt)
    as (out & Hout & Hlen).
  { unfold nt. rewrite !length_map, !length_mask_filter; rewrite ?length_map; lia. }
  { apply List.Forall_forall. intros y Hy. apply in_map_iff in Hy as [x [<- Hx]].
    apply (np_mask_in _ _ _ f0) in Hx as (i & Hi & Hm & <-); [|by rewrite length_map].
    rewrite (nth_map_in _ _ _ _ f0) in Hm by lia.
    apply Hfin; [apply nth_In; lia|done]. }
  { by apply count_true_in_true. }
  { by apply count_true_in_false. }
  rewrite Hout. cbn [of_result xbind].
  unfold nt in Hlen.
  rewrite !length_map, length_mask_filter in Hlen by (rewrite length_map; lia).
  unfold np_mask_assign. rewrite repeat_length, length_map, Nat.eqb_refl, Hlen, Nat.eqb_refl.
  cbn [negb xbind]. unfold np_mask_set.
  rewrite length_mask_fill, repeat_length, !length_map, Nat.eqb_refl. cbn [xbind].
  eexists; split; [reflexivity|].
  rewrite length_zip_with, length_mask_fill, repeat_length, !length_map. lia.
Qed.

Lemma compute_peak_likelihood_succeeds_witness :
  length [2; 2; 64] = length [0; 10; 100] /\
  length [1; 0; 0] = length [0; 10; 100] /\
  (forall (xs : list Z) (ys : list bool), length xs = length ys ->
     Forall (fun _ : Z => True) xs -> In true ys -> In false ys ->
     exists out, (fun xs (_ : list bool) => Ok (map (fun _ => 5) xs)) xs ys = Ok out /\
                 length out = length xs) /\
  exists probs,
    compute_peak_likelihood Z 0 1 (Z.ltb 0) Z.log2 (fun xs _ => Ok (map (fun _ => 5) xs))
      [0; 10; 100] [1; 0; 0] [2; 2; 64] = XOk probs /\ length probs = length [0; 10; 100].
Proof.
  assert (Hlr : forall (xs : list Z) (ys : list bool), length xs = length ys ->
     Forall (fun _ : Z => True) xs -> In true ys -> In false ys ->
     exists out, (fun xs (_ : list bool) => Ok (map (fun _ => 5) xs)) xs ys = Ok out /\
                 length out = length xs)
    by (intros xs ys _ _ _ _; eexists; split; [reflexivity|apply length_map]).
  split; [reflexivity|]. split; [reflexivity|]. split; [exact Hlr|].
  apply (compute_peak_likelihood_succeeds 0 1 (Z.ltb 0) Z.log2 _ (fun _ => True)
           [0; 10; 100] [1; 0; 0] [2; 2; 64]);
    [reflexivity|reflexivity|exact Hlr|intros; exact I].
Defined.

(** ** [decode_peak_model]: the intensity range *)

Lemma float_of_text_ok {float_t} (py_float : string -> option float_t) t s f :
  text t = Some s -> py_float s = Some f -> float_of_text float_t py_float (text t) = Ok f.
Proof. intros Hs Hf. unfold float_of_text. by rewrite Hs, Hf. Qed.

(** When the [IntensityRange] element of the inner document does not hold
    exactly two [double] children, each holding a number, [decode_peak_model]
    raises the [ValueError] of tuple unpacking, whatever the other fields
    are: not enough values for fewer than two, too many for more. *)
Theorem peak_model_intensity_range_not_two {float_t} (py_float : string -> option float_t)
    (zip_first_text : bytes -> result string) (xml_fromstring : string -> result element)
    (b64decode : string -> result bytes) (blob : bytes) (etree ir : element) :
  peak_model_inner_tree zip_first_text xml_fromstring b64decode blob = Ok etree ->
  xml_find etree "IntensityRange" = Some ir ->
  Forall (fun t => exists s f, text t = Some s /\ py_float s = Some f) (xml_findall ir "double") ->
  length (xml_findall ir "double") <> 2%nat ->
  decode_peak_model float_t py_float zip_first_text xml_fromstring b64decode blob =
  Err (ValueError (if Nat.ltb (length (xml_findall ir "double")) 2
                   then msg_unpack_short else msg_unpack_long)).
Proof.
  intros Htree Hir Hall Hlen. unfold decode_peak_model. rewrite Htree. simpl.
  unfold peak_shape_of_tree. rewrite Hir.
  destruct (xml_findall ir "double") as [|t1 [|t2 [|t3 rest]]]; simpl in Hlen |- *.
  - reflexivity.
  - inversion Hall as [|? ? (s & f & Hs & Hf)]; subst.
    by rewrite (float_of_text_ok py_float t1 s f).
  - lia.
  - inversion Hall as [|? ? (s1 & g1 & Hs1 & Hf1) H2]; subst.
    inversion H2 as [|? ? (s2 & g2 & Hs2 & Hf2) H3]; subst.
    inversion H3 as [|? ? (s3 & g3 & Hs3 & Hf3) H4]; subst.
    rewrite (float_of_text_ok py_float t1 s1 g1), (float_of_text_ok py_float t2 s2 g2),
      (float_of_text_ok py_float t3 s3 g3) by done.
    reflexivity.
Qed.

Lemma peak_model_intensity_range_not_two_witness :
  let doc := Element "PycoPeakModel" [] None
               [leaf "ApexRT" "5.1";
                Element "IntensityRange" [] None
                  [leaf "double" "0"; leaf "double" "1"; leaf "double" "2"]] in
  let ir := Element "IntensityRange" [] None
              [leaf "double" "0"; leaf "double" "1"; leaf "double" "2"] in
  peak_model_inner_tree fx_zip (fx_xml_with doc) fx_b64 outer_blob = Ok doc /\
  xml_find doc "IntensityRange" = Some ir /\
  Forall (fun t => exists s f, text t = Some s /\ decimal_float s = Some f) (xml_findall ir "double") /\
  length (xml_findall ir "double") <> 2%nat /\
  decode_peak_model Q decimal_float fx_zip (fx_xml_with doc) fx_b64 outer_blob =
  Err (ValueError msg_unpack_long).
Proof.
  intros doc ir.
  assert (Htree : peak_model_inner_tree fx_zip (fx_xml_with doc) fx_b64 outer_blob = Ok doc)
    by reflexivity.
  assert (Hir : xml_find doc "IntensityRange" = Some ir) by reflexivity.
  assert (Hall : Forall (fun t => exists s f, text t = Some s /\ decimal_float s = Some f)
                   (xml_findall ir "double"))
    by (repeat constructor; do 2 eexists; split; reflexivity).
  assert (Hlen : length (xml_findall ir "double") <> 2%nat) by (simpl; lia).
  do 4 (split; [assumption|]).
  exact (peak_model_intensity_range_not_two decimal_float fx_zip (fx_xml_with doc) fx_b64
           outer_blob doc ir Htree Hir Hall Hlen).
Defined.
